(** * System generators: a shallow embedding of
      [openmmforcefields/generators/system_generators.py]

    The module defines two classes.  [SystemGenerator] composes an OpenMM
    [System] from a topology through the force-field engine and a small
    molecule template generator, then post-processes the forces.
    [DummySystemGenerator] overrides [create_system] with an engine-free
    construction that, as written, ends once the bond graph is built.

    Python objects are modelled by records, in-place mutation by explicit
    state passing, exceptions by a result type.  Sets are stdpp [gset]s,
    lists indexed in place use stdpp's lookup and insert with Python's
    [IndexError] written out. *)

From Stdlib Require Import Ascii String QArith Qcanon.
From stdpp Require Import base decidable numbers list gmap sets strings.

Local Open Scope string_scope.
Local Open Scope list_scope.
Local Open Scope nat_scope.

(** ** Python exceptions and results *)

Module Py.

(** The exception classes the module raises or meets; [OtherError] stands
    for whatever a collaborator raises. *)
Inductive exn : Type :=
| ValueError (msg : string)
| IndexError (msg : string)
| NameError (name : string)
| OtherError (msg : string).

(** The outcome of evaluating a Python expression or statement block. *)
Inductive result (A : Type) : Type :=
| Ok (a : A)
| Raise (e : exn).
Arguments Ok {A} a.
Arguments Raise {A} e.

Definition bind {A B} (m : result A) (k : A → result B) : result B :=
  match m with
  | Ok a => k a
  | Raise e => Raise e
  end.

#[global] Instance result_ret : MRet result := λ A a, Ok a.
#[global] Instance result_bind : MBind result := λ A B k m, bind m k.

(** [for x in xs: acc = body(acc, x)] where the body may raise. *)
Fixpoint for_each {A S} (xs : list A) (body : S → A → result S) (s : S) : result S :=
  match xs with
  | [] => Ok s
  | x :: xs' => s' ← body s x; for_each xs' body s'
  end.

(** [l[i]] on a Python list with a non-negative index. *)
Definition getitem {A} (l : list A) (i : nat) : result A :=
  match l !! i with
  | Some a => Ok a
  | None => Raise (IndexError "list index out of range")
  end.

End Py.
Import Py.

(** ** Topology *)

(** An atom is identified with its integer index: the source reads both
    [atom1.index] (line 347) and uses [bond.atom1] itself as the index into
    [bondedToAtom] (line 363); the data model has a bond as a pair of atom
    indices.  [index] is the [.index] attribute. *)
Definition Atom : Type := nat.
Definition index (a : Atom) : nat := a.

(** A bond unpacks as [(atom1, atom2)] and has the attributes [.atom1] and
    [.atom2]. *)
Record Bond : Type := mkBond { atom1 : Atom; atom2 : Atom }.

(** The topology.  The source reads the atoms as [topology.atoms] (lines
    330, 339) and as [topology.atoms()] (line 344), the bonds as
    [topology.bonds()]; all of them stand for these two sequences, and
    nothing in the module writes to them. *)
Record Topology : Type := mkTopology { atoms : list Atom; bonds : list Bond }.

(** Both ends of a bond are positions below [n]. *)
Definition in_range (n : nat) (bond : Bond) : Prop :=
  atom1 bond < n ∧ atom2 bond < n.

(** Bonds reference existing atom positions only. *)
Definition valid_topology (topology : Topology) : Prop :=
  Forall (in_range (length (atoms topology))) (bonds topology).

(** The bond joins [i] and [j], in either direction. *)
Definition joins (bond : Bond) (i j : nat) : Prop :=
  (atom1 bond = i ∧ atom2 bond = j) ∨ (atom1 bond = j ∧ atom2 bond = i).

(** [i] and [j] are joined by a bond of the topology. *)
Definition bonded (topology : Topology) (i j : nat) : Prop :=
  ∃ bond, bond ∈ bonds topology ∧ joins bond i j.

(** ** Bond graph (lines 342-348) *)

(** [bondedToAtom[i].add(j)]: the lookup raises out of range, the set is
    updated in place. *)
Definition add_neighbor (bondedToAtom : list (gset nat)) (i j : nat)
  : result (list (gset nat)) :=
  s ← getitem bondedToAtom i;
  mret (<[i := s ∪ {[j]}]> bondedToAtom).

(** Body of the loop over the bonds (lines 347-348). *)
Definition add_bond (bondedToAtom : list (gset nat)) (bond : Bond)
  : result (list (gset nat)) :=
  bondedToAtom ← add_neighbor bondedToAtom (index (atom1 bond)) (index (atom2 bond));
  add_neighbor bondedToAtom (index (atom2 bond)) (index (atom1 bond)).

Definition bondedToAtom (topology : Topology) : result (list (gset nat)) :=
  let bondedToAtom := foldl (λ acc _, acc ++ [∅]) [] (atoms topology) in
  for_each (bonds topology) add_bond bondedToAtom.

(** ** Strings: Python's [repr] of a [str] and of a list of [str] *)

Module PyStr.

Definition nl : string := String "010"%char EmptyString.
Definition squote : ascii := "039"%char.
Definition dquote : ascii := "034"%char.
Definition backslash : ascii := "092"%char.

Fixpoint contains_char (c : ascii) (s : string) : bool :=
  match s with
  | EmptyString => false
  | String c' s' => if Ascii.eqb c c' then true else contains_char c s'
  end.

Definition hex_digit (n : nat) : ascii :=
  nth n (list_ascii_of_string "0123456789abcdef") "0"%char.

(** One character of a [repr], inside quotes [q]. *)
Definition escape_char (q c : ascii) : string :=
  let n := nat_of_ascii c in
  if Ascii.eqb c backslash then String backslash (String backslash EmptyString)
  else if Ascii.eqb c q then String backslash (String q EmptyString)
  else if n =? 10 then String backslash "n"
  else if n =? 13 then String backslash "r"
  else if n =? 9 then String backslash "t"
  else if (n <? 32) || (n =? 127)
       then String backslash
              (String "x" (String (hex_digit (n / 16)) (String (hex_digit (n mod 16)) EmptyString)))
  else String c EmptyString.

Fixpoint escape (q : ascii) (s : string) : string :=
  match s with
  | EmptyString => EmptyString
  | String c s' => escape_char q c ++ escape q s'
  end.

(** [repr(s)]: single quotes, unless the text has a single quote and no
    double quote. *)
Definition repr_str (s : string) : string :=
  let q := if contains_char squote s && negb (contains_char dquote s)
           then dquote else squote in
  String q (escape q s ++ String q EmptyString).

(** [str(l)] for a list of strings, as an f-string formats it. *)
Definition str_list (l : list string) : string :=
  "[" ++ String.concat ", " (map repr_str l) ++ "]".

End PyStr.
Import PyStr.

(** ** Systems and forces *)

(** Quantities (charges, lengths, energies) are Python floats with units in
    the source.  A float is a finite value, an infinity or a NaN; finite
    values are kept as exact rationals in the unit system's base units
    ([Finite 0] stands for both signed zeros, which compare equal). *)
Inductive pyfloat : Type :=
| Finite (q : Qc)
| Infinite (negative : bool)
| NaN.

(** [x *= 0], the only arithmetic the module does on a quantity: zero for a
    finite value, NaN for an infinity or a NaN. *)
Definition mul_zero (x : pyfloat) : pyfloat :=
  match x with
  | Finite _ => Finite 0
  | Infinite _ | NaN => NaN
  end.

Definition is_finite (x : pyfloat) : Prop :=
  match x with Finite _ => True | _ => False end.

Definition quantity (z : Z) : pyfloat := Finite (Q2Qc (inject_Z z)).

(** Parameter tuples as the [get...Parameters] methods return them. *)
Definition ParticleParameters : Type := pyfloat * pyfloat * pyfloat.                 (* charge, sigma, epsilon *)
Definition ExceptionParameters : Type := nat * nat * pyfloat * pyfloat * pyfloat.   (* p1, p2, chargeProd, sigma, epsilon *)
Definition TorsionParameters : Type := nat * nat * nat * nat * Z * pyfloat * pyfloat.
                                             (* p1, p2, p3, p4, periodicity, phase, K *)
Definition BondParameters : Type := nat * nat * pyfloat * pyfloat.             (* p1, p2, length, k *)
Definition AngleParameters : Type := nat * nat * nat * pyfloat * pyfloat.      (* p1, p2, p3, angle, k *)

Record Barostat : Type := mkBarostat {
  DefaultPressure : pyfloat;
  DefaultTemperature : pyfloat;
  Frequency : Z;
  RandomNumberSeed : Z }.

Inductive NonbondedMethod : Type := NoCutoff | CutoffNonPeriodic | CutoffPeriodic.

(** The force objects a [System] holds, by class. *)
Inductive Force : Type :=
| NonbondedForce (particles : list ParticleParameters)
                 (exceptions : list ExceptionParameters)
| PeriodicTorsionForce (torsions : list TorsionParameters)
| HarmonicBondForce (bond_terms : list BondParameters)
| HarmonicAngleForce (angle_terms : list AngleParameters)
| CustomNonbondedForce (energy : string) (method : NonbondedMethod)
                       (cutoff : pyfloat) (custom_particles : list (list pyfloat))
| MonteCarloBarostat (b : Barostat)
| OtherForce (tag : nat).              (* a force of any other class *)

Record System : Type := mkSystem {
  particle_masses : list pyfloat;
  forces : list Force }.

Definition addParticle (system : System) (mass : pyfloat) : System :=
  mkSystem (particle_masses system ++ [mass]) (forces system).

Definition addForce (system : System) (force : Force) : System :=
  mkSystem (particle_masses system) (forces system ++ [force]).

(** ** External collaborators *)

Definition Molecule : Type := string.
Definition Kwargs : Type := list (string * string).

(** A small-molecule template generator instance: its class, the force
    field it was built for, its cache file and the molecules it knows. *)
Record TemplateGenerator : Type := mkTemplateGenerator {
  tg_class : string;
  tg_forcefield : string;
  tg_cache : option string;
  tg_molecules : list Molecule }.

(** What [template_generator_cls(forcefield=..., cache=...)] does. *)
Inductive Construction : Type :=
| Constructed (instance : TemplateGenerator)
| Rejected (msg : string).               (* raise ValueError(msg) *)

(** Modelled from the spec: a subclass of [SmallMoleculeTemplateGenerator]
    (template_generators.py is not part of the sources).  The constructor
    takes the force-field identifier and the cache location and fails with
    a [ValueError] when it does not recognise the identifier; the class
    exposes the list of identifiers it supports. *)
Record TemplateGeneratorClass : Type := mkTemplateGeneratorClass {
  __name__ : string;
  INSTALLED_FORCEFIELDS : list string;
  construct : string → option string → Construction }.

(** The engine object [app.ForceField] built from the ffxml files, with the template
    generators registered on it. *)
Record ForceField : Type := mkForceField {
  ff_files : list string;
  ff_template_generators : list string }.

Definition registerTemplateGenerator (forcefield : ForceField) (tg : TemplateGenerator)
  : ForceField :=
  mkForceField (ff_files forcefield) (ff_template_generators forcefield ++ [tg_class tg]).

(** Modelled from the spec: the collaborators' methods.  [subclasses] is
    [SmallMoleculeTemplateGenerator.__subclasses__()]; [tg_add_molecules] is the
    template generator's [add_molecules], which returns the updated
    generator or raises; [createSystem] is the engine's
    [ForceField.createSystem(topology, **kwargs)], which consults the
    registered generator (the same object as [self.template_generator],
    passed here in its current state) and returns a system or raises. *)
Record Collaborators : Type := mkCollaborators {
  subclasses : list TemplateGeneratorClass;
  tg_add_molecules : TemplateGenerator → option (list Molecule) → result TemplateGenerator;
  createSystem : ForceField → option TemplateGenerator → Topology → Kwargs → result System }.

(** ** [class SystemGenerator] *)

Module SystemGenerator.

(** The instance attributes set by [__init__]. *)
Record t : Type := mk {
  barostat : option Barostat;
  particle_charges : bool;
  exception_charges : bool;
  particle_epsilons : bool;
  exception_epsilons : bool;
  torsions : bool;
  postprocess_system : option (System → result System);
  forcefield : ForceField;
  forcefield_kwargs : Kwargs;
  template_generator : option TemplateGenerator }.

Definition set_template_generator (self : t) (tg : option TemplateGenerator) : t :=
  mk (barostat self) (particle_charges self) (exception_charges self)
     (particle_epsilons self) (exception_epsilons self) (torsions self)
     (postprocess_system self) (forcefield self) (forcefield_kwargs self) tg.

Definition set_forcefield (self : t) (ff : ForceField) : t :=
  mk (barostat self) (particle_charges self) (exception_charges self)
     (particle_epsilons self) (exception_epsilons self) (torsions self)
     (postprocess_system self) ff (forcefield_kwargs self) (template_generator self).

Section Methods.
Context (world : Collaborators).

(** *** [add_molecules] (lines 180-196) *)

Definition add_molecules (self : t) (molecules : option (list Molecule)) : result t :=
  match template_generator self with
  | None =>
      Raise (ValueError "You must have a small molecule residue template generator registered to add small molecules")
  | Some tg =>
      tg' ← tg_add_molecules world tg molecules;
      mret (set_template_generator self (Some tg'))
  end.

(** *** [__init__] (lines 137-178) *)

(** One round of the loop of lines 162-168: the state is
    [self.template_generator] and the debug log. *)
Definition probe (small_molecule_forcefield : string) (cache : option string)
    (st : option TemplateGenerator * list string) (template_generator_cls : TemplateGeneratorClass)
  : option TemplateGenerator * list string :=
  let '(tg, log) := st in
  let log := log ++ ["Trying " +:+ __name__ template_generator_cls +:+ " to load "
                       +:+ small_molecule_forcefield] in
  match construct template_generator_cls small_molecule_forcefield cache with
  | Constructed instance => (Some instance, log)
  | Rejected e =>
      (tg, log ++ ["  " +:+ __name__ template_generator_cls +:+ " cannot load "
                     +:+ small_molecule_forcefield; e])
  end.

(** The message of lines 170-173. *)
Definition no_generator_msg (small_molecule_forcefield : string) : string :=
  foldl (λ msg template_generator_cls,
           msg +:+ "  " +:+ __name__ template_generator_cls +:+ ": "
               +:+ str_list (INSTALLED_FORCEFIELDS template_generator_cls) +:+ nl)
        (("No registered small molecule template generators could load force field '"
            +:+ small_molecule_forcefield +:+ "'" +:+ nl)
           +:+ "Available installed force fields are:" +:+ nl)
        (subclasses world).

(** The constructor returns the debug log together with the new object or
    the exception that ends it. *)
Definition __init__ (forcefields : option (list string))
    (small_molecule_forcefield : option string) (forcefield_kwargs : option Kwargs)
    (barostat : option Barostat) (molecules : option (list Molecule))
    (cache : option string) (postprocess_system : option (System → result System))
  : list string * result t :=
  let forcefields := default [] forcefields in
  let self :=
    mk barostat true true true true true postprocess_system
       (mkForceField forcefields [])
       (default [] forcefield_kwargs)
       None in
  let '(selected, log) :=
    match small_molecule_forcefield with
    | Some ff =>
        let '(tg, log) := foldl (probe ff cache) (None, []) (subclasses world) in
        match tg with
        | None => (Raise (ValueError (no_generator_msg ff)), log)
        | Some instance =>
            (Ok (set_forcefield (set_template_generator self (Some instance))
                   (registerTemplateGenerator (forcefield self) instance)), log)
        end
    | None => (Ok self, [])
    end in
  (log, self ← selected; add_molecules self molecules).

(** *** [_modify_forces] (lines 198-245) *)

(** Lines 227-232 for one particle index. *)
Definition modify_particle (self : t) (particles : list ParticleParameters) (index : nat)
  : list ParticleParameters :=
  match particles !! index with
  | Some (charge, sigma, epsilon) =>
      let charge := if particle_charges self then charge else mul_zero charge in
      let epsilon := if particle_epsilons self then epsilon else mul_zero epsilon in
      <[index := (charge, sigma, epsilon)]> particles
  | None => particles
  end.

(** Lines 234-239 for one exception index. *)
Definition modify_exception (self : t) (exceptions : list ExceptionParameters) (index : nat)
  : list ExceptionParameters :=
  match exceptions !! index with
  | Some (p1, p2, chargeProd, sigma, epsilon) =>
      let chargeProd := if exception_charges self then chargeProd else mul_zero chargeProd in
      let epsilon := if exception_epsilons self then epsilon else mul_zero epsilon in
      <[index := (p1, p2, chargeProd, sigma, epsilon)]> exceptions
  | None => exceptions
  end.

(** Lines 242-245 for one torsion index. *)
Definition modify_torsion (self : t) (torsions_ : list TorsionParameters) (index : nat)
  : list TorsionParameters :=
  match torsions_ !! index with
  | Some (p1, p2, p3, p4, periodicity, phase, K) =>
      let K := if torsions self then K else mul_zero K in
      <[index := (p1, p2, p3, p4, periodicity, phase, K)]> torsions_
  | None => torsions_
  end.

(** The body of [for force in system.getForces()] (lines 225-245): the
    dispatch is on the class name, the loops run over [range(getNum...())]. *)
Definition modify_force (self : t) (force : Force) : Force :=
  match force with
  | NonbondedForce particles exceptions =>
      NonbondedForce
        (foldl (modify_particle self) particles (seq 0 (length particles)))
        (foldl (modify_exception self) exceptions (seq 0 (length exceptions)))
  | PeriodicTorsionForce torsions_ =>
      PeriodicTorsionForce
        (foldl (modify_torsion self) torsions_ (seq 0 (length torsions_)))
  | _ => force
  end.

(** [seed] is the value drawn by [np.random.randint(MAXINT)]. *)
Definition _modify_forces (self : t) (seed : Z) (system : System) : System :=
  let system :=
    match barostat self with
    | Some b =>
        addForce system
          (MonteCarloBarostat
             (mkBarostat (DefaultPressure b) (DefaultTemperature b) (Frequency b) seed))
    | None => system
    end in
  mkSystem (particle_masses system) (map (modify_force self) (forces system)).

(** *** [create_system] (lines 247-283) *)

(** Returns the generator after the call (its template generator may have
    learnt molecules) and the system or the exception. *)
Definition create_system (self : t) (topology : Topology)
    (molecules : option (list Molecule)) (seed : Z) : t * result System :=
  let informed :=
    match template_generator self, molecules with
    | Some tg, Some ms =>
        tg' ← tg_add_molecules world tg (Some ms);
        mret (set_template_generator self (Some tg'))
    | _, _ => Ok self
    end in
  match informed with
  | Raise e => (self, Raise e)
  | Ok self =>
      (self,
       system ← createSystem world (forcefield self) (template_generator self)
                  topology (forcefield_kwargs self);
       let system := _modify_forces self seed system in
       match postprocess_system self with
       | Some hook => hook system
       | None => Ok system
       end)
  end.

End Methods.
End SystemGenerator.

(** ** [class DummySystemGenerator] *)

Module DummySystemGenerator.

(** What a call of [create_system] hands back: the method is documented to
    return a [System]; Python lets it return any object. *)
Inductive returned : Type :=
| ReturnedSystem (system : System)
| ReturnedList (bondedToAtom : list (gset nat)).

(** The names the module binds at top level (lines 10, 11, 17, 289).  The
    body of [create_system] also reads [unit] and [openmm], which the module
    never imports. *)
Definition module_globals : list string :=
  ["logging"; "_logger"; "SystemGenerator"; "DummySystemGenerator"].

(** Reading a global name. *)
Definition lookup_global (globals : list string) (name : string) : result unit :=
  if bool_decide (name ∈ globals) then Ok () else Raise (NameError name).

Definition addCustomParticle (force : Force) (parameters : list pyfloat) : Force :=
  match force with
  | CustomNonbondedForce energy method cutoff ps =>
      CustomNonbondedForce energy method cutoff (ps ++ [parameters])
  | _ => force
  end.

(** [create_system] (lines 303-349).  [globals] is the module namespace at
    the time of the call; [self] and the keyword arguments are not read.
    The force object added to the system at line 338 is the one that
    receives the particles of lines 339-340.  The statements after line 349
    (the bond, angle and torsion blocks) are never reached. *)
Definition create_system (globals : list string) (topology : Topology) : result returned :=
  _ ← lookup_global globals "unit";                      (* line 323 *)
  _ ← lookup_global globals "openmm";                    (* line 326 *)
  let system := mkSystem [] [] in
  let mass := quantity 12 in                            (* 12.0 amu *)
  let system := foldl (λ system _, addParticle system mass) system (atoms topology) in
  let nonbonded := CustomNonbondedForce "100/(r/0.1)^4" CutoffNonPeriodic (quantity 1) [] in
  let nonbonded := foldl (λ force _, addCustomParticle force []) nonbonded (atoms topology) in
  let system := addForce system nonbonded in
  bondedToAtom ← bondedToAtom topology;
  mret (ReturnedList bondedToAtom).                      (* line 349 *)

Definition returns_system (r : result returned) : bool :=
  match r with
  | Ok (ReturnedSystem _) => true
  | _ => false
  end.

End DummySystemGenerator.

(** ** Specification vocabulary *)

(** [j] is in the set stored at position [i] of an adjacency list. *)
Definition neighbours (adj : list (gset nat)) (i j : nat) : Prop :=
  ∃ s, adj !! i = Some s ∧ j ∈ s.

(** What one round of the probing loop writes to the debug log. *)
Definition probe_log (small_molecule_forcefield : string) (cache : option string)
    (template_generator_cls : TemplateGeneratorClass) : list string :=
  ("Trying " +:+ __name__ template_generator_cls +:+ " to load "
     +:+ small_molecule_forcefield) ::
  match construct template_generator_cls small_molecule_forcefield cache with
  | Constructed _ => []
  | Rejected e =>
      ["  " +:+ __name__ template_generator_cls +:+ " cannot load "
         +:+ small_molecule_forcefield; e]
  end.

(** The class rejects the identifier. *)
Definition rejects (small_molecule_forcefield : string) (cache : option string)
    (template_generator_cls : TemplateGeneratorClass) : Prop :=
  ∃ e, construct template_generator_cls small_molecule_forcefield cache = Rejected e.

(** The first two lines of the error message, and the line of one class. *)
Definition msg_header (small_molecule_forcefield : string) : string :=
  "No registered small molecule template generators could load force field '"
    +:+ small_molecule_forcefield +:+ "'" +:+ nl
    +:+ "Available installed force fields are:" +:+ nl.

Definition msg_line (template_generator_cls : TemplateGeneratorClass) : string :=
  "  " +:+ __name__ template_generator_cls +:+ ": "
    +:+ str_list (INSTALLED_FORCEFIELDS template_generator_cls) +:+ nl.

(** [part] occurs in [whole]. *)
Definition occurs_in (part whole : string) : Prop :=
  ∃ before after, whole = before +:+ part +:+ after.

(** The force the barostat block appends, if any. *)
Definition barostat_forces (self : SystemGenerator.t) (seed : Z) : list Force :=
  match SystemGenerator.barostat self with
  | Some b =>
      [MonteCarloBarostat
         (mkBarostat (DefaultPressure b) (DefaultTemperature b) (Frequency b) seed)]
  | None => []
  end.

(** The parts of a term the modification pass may not touch. *)
Definition particle_frame (p : ParticleParameters) : pyfloat :=
  let '(charge, sigma, epsilon) := p in sigma.

Definition exception_frame (e : ExceptionParameters) : nat * nat * pyfloat :=
  let '(p1, p2, chargeProd, sigma, epsilon) := e in (p1, p2, sigma).

Definition torsion_frame (t : TorsionParameters) : nat * nat * nat * nat * Z * pyfloat :=
  let '(p1, p2, p3, p4, periodicity, phase, K) := t in (p1, p2, p3, p4, periodicity, phase).

(** Two forces that differ at most in particle charges and epsilons,
    exception charge products and epsilons, and torsion barrier heights. *)
Inductive same_frame : Force → Force → Prop :=
| same_frame_nonbonded ps es ps' es' :
    particle_frame <$> ps = particle_frame <$> ps' →
    exception_frame <$> es = exception_frame <$> es' →
    same_frame (NonbondedForce ps es) (NonbondedForce ps' es')
| same_frame_torsion ts ts' :
    torsion_frame <$> ts = torsion_frame <$> ts' →
    same_frame (PeriodicTorsionForce ts) (PeriodicTorsionForce ts')
| same_frame_refl force : same_frame force force.

(** The barrier heights of all periodic torsions of a system. *)
Definition barrier_height (t : TorsionParameters) : pyfloat :=
  let '(p1, p2, p3, p4, periodicity, phase, K) := t in K.

Definition barrier_heights (system : System) : list pyfloat :=
  forces system ≫= λ force,
    match force with
    | PeriodicTorsionForce ts => barrier_height <$> ts
    | _ => []
    end.

(** The harmonic bond and angle forces of a system. *)
Definition is_harmonic (force : Force) : bool :=
  match force with
  | HarmonicBondForce _ | HarmonicAngleForce _ => true
  | _ => false
  end.

Definition harmonic_forces (system : System) : list Force :=
  filter (λ force, is_harmonic force = true) (forces system).

(** What the modification pass makes of one particle, exception, torsion. *)
Definition scaled_particle (self : SystemGenerator.t) (p : ParticleParameters)
  : ParticleParameters :=
  let '(charge, sigma, epsilon) := p in
  (if SystemGenerator.particle_charges self then charge else mul_zero charge,
   sigma,
   if SystemGenerator.particle_epsilons self then epsilon else mul_zero epsilon).

Definition scaled_exception (self : SystemGenerator.t) (e : ExceptionParameters)
  : ExceptionParameters :=
  let '(p1, p2, chargeProd, sigma, epsilon) := e in
  (p1, p2,
   if SystemGenerator.exception_charges self then chargeProd else mul_zero chargeProd,
   sigma,
   if SystemGenerator.exception_epsilons self then epsilon else mul_zero epsilon).

Definition scaled_torsion (self : SystemGenerator.t) (t : TorsionParameters)
  : TorsionParameters :=
  let '(p1, p2, p3, p4, periodicity, phase, K) := t in
  (p1, p2, p3, p4, periodicity, phase,
   if SystemGenerator.torsions self then K else mul_zero K).

(** The harmonic angle terms and the periodic torsion terms in what a call
    of the dummy [create_system] hands back: those of the returned system,
    none when the call raises or returns something else. *)
Definition returned_angle_terms (r : result DummySystemGenerator.returned)
  : list AngleParameters :=
  match r with
  | Ok (DummySystemGenerator.ReturnedSystem system) =>
      forces system ≫= λ force,
        match force with HarmonicAngleForce terms => terms | _ => [] end
  | _ => []
  end.

Definition returned_torsion_terms (r : result DummySystemGenerator.returned)
  : list TorsionParameters :=
  match r with
  | Ok (DummySystemGenerator.ReturnedSystem system) =>
      forces system ≫= λ force,
        match force with PeriodicTorsionForce terms => terms | _ => [] end
  | _ => []
  end.

(** ** Example inputs *)

Definition chain4 : Topology :=
  mkTopology [0; 1; 2; 3] [mkBond 0 1; mkBond 1 2; mkBond 2 3].

Definition pair2 : Topology := mkTopology [0; 1] [mkBond 0 1].

(** ** Example collaborators *)

(** A template generator class in the style of the GAFF and SMIRNOFF ones:
    it accepts exactly the identifiers it lists. *)
Definition listed_class (name : string) (installed : list string) : TemplateGeneratorClass :=
  mkTemplateGeneratorClass name installed
    (λ forcefield cache,
       if bool_decide (forcefield ∈ installed)
       then Constructed (mkTemplateGenerator name forcefield cache [])
       else Rejected ("Specified 'forcefield' (" +:+ forcefield +:+ ") must be one of "
                        +:+ str_list installed)).

Definition GAFFTemplateGenerator : TemplateGeneratorClass :=
  listed_class "GAFFTemplateGenerator" ["gaff-2.11"; "gaff-1.81"].

Definition SMIRNOFFTemplateGenerator : TemplateGeneratorClass :=
  listed_class "SMIRNOFFTemplateGenerator" ["openff-1.0.0"; "smirnoff99Frosst-1.1.0"].

(** A third class that also claims ["openff-1.0.0"]. *)
Definition OtherTemplateGenerator : TemplateGeneratorClass :=
  listed_class "OtherTemplateGenerator" ["openff-1.0.0"].

(** A system as the engine could assemble it for the 4-atom chain. *)
Definition chain4_system : System :=
  mkSystem [quantity 12; quantity 12; quantity 12; quantity 12]
    [ HarmonicBondForce [(0, 1, quantity 1, quantity 100); (1, 2, quantity 1, quantity 100);
                         (2, 3, quantity 1, quantity 100)];
      HarmonicAngleForce [(0, 1, 2, quantity 2, quantity 50); (1, 2, 3, quantity 2, quantity 50)];
      PeriodicTorsionForce [(0, 1, 2, 3, 3%Z, quantity 0, quantity 5)];
      NonbondedForce [(quantity 1, quantity 3, quantity 2); (quantity (-1), quantity 3, quantity 2);
                      (quantity 0, quantity 3, quantity 2); (quantity 0, quantity 3, quantity 2)]
                     [(0, 3, quantity (-1), quantity 3, quantity 1)] ].

(** Collaborators: the given classes, a template generator that records the
    molecules it is told about, and an engine that assembles [chain4_system]
    for every topology. *)
Definition example_world (classes : list TemplateGeneratorClass) : Collaborators :=
  mkCollaborators classes
    (λ tg molecules,
       Ok (mkTemplateGenerator (tg_class tg) (tg_forcefield tg) (tg_cache tg)
             (tg_molecules tg ++ default [] molecules)))
    (λ forcefield tg topology kwargs, Ok chain4_system).

(** A finishing hook that overwrites every torsion barrier height with 1. *)
Definition raise_barriers (system : System) : result System :=
  Ok (mkSystem (particle_masses system)
        ((λ force,
            match force with
            | PeriodicTorsionForce ts =>
                PeriodicTorsionForce
                  ((λ '(p1, p2, p3, p4, periodicity, phase, K),
                      (p1, p2, p3, p4, periodicity, phase, quantity 1)) <$> ts)
            | _ => force
            end) <$> forces system)).

(** A generator with no template generator installed, as the attribute can
    be set to [None] on a live object. *)
Definition bare_generator : SystemGenerator.t :=
  SystemGenerator.mk None true true true true true None (mkForceField [] []) [] None.

(** A generator with the torsion flag off and the barrier-raising hook. *)
Definition hooked_generator : SystemGenerator.t :=
  SystemGenerator.mk None true true true true false (Some raise_barriers)
    (mkForceField [] []) [] None.

(** Collaborators whose engine assembles one torsion with an infinite
    barrier height. *)
Definition infinite_barrier_world : Collaborators :=
  mkCollaborators []
    (λ tg molecules, Ok tg)
    (λ forcefield tg topology kwargs,
       Ok (mkSystem [quantity 12; quantity 12; quantity 12; quantity 12]
             [PeriodicTorsionForce [(0, 1, 2, 3, 3%Z, quantity 0, Infinite false)]])).

(** A generator with the torsion flag off and no hook. *)
Definition torsionless_generator : SystemGenerator.t :=
  SystemGenerator.mk None true true true true false None
    (mkForceField [] []) [] None.

(** A bond written in either direction. *)
Definition oriented (flip : bool) (i j : nat) : Bond :=
  if flip then mkBond j i else mkBond i j.

(** The chain 0-1-2-3 with each bond written in a chosen direction. *)
Definition chain (f1 f2 f3 : bool) : Topology :=
  mkTopology [0; 1; 2; 3] [oriented f1 0 1; oriented f2 1 2; oriented f3 2 3].

(** ** Further vocabulary *)

#[global] Instance in_range_dec n bond : Decision (in_range n bond).
Proof. unfold in_range. apply _. Defined.

(** A topology with a bond to an atom that does not exist. *)
Definition dangling : Topology := mkTopology [0; 1] [mkBond 0 1; mkBond 1 2].

(** The readable attributes of one nonbonded particle and exception. *)
Definition particle_charge (p : ParticleParameters) : pyfloat :=
  let '(charge, sigma, epsilon) := p in charge.

Definition particle_epsilon (p : ParticleParameters) : pyfloat :=
  let '(charge, sigma, epsilon) := p in epsilon.

Definition exception_chargeProd (e : ExceptionParameters) : pyfloat :=
  let '(p1, p2, chargeProd, sigma, epsilon) := e in chargeProd.

Definition exception_epsilon (e : ExceptionParameters) : pyfloat :=
  let '(p1, p2, chargeProd, sigma, epsilon) := e in epsilon.

(** A list of values kept when the flag is on, each multiplied by 0 when
    it is off. *)
Definition kept_or_zero (flag : bool) (values : list pyfloat) : list pyfloat :=
  if flag then values else mul_zero <$> values.

(** Collaborators whose engine finds no template for a residue. *)
Definition failing_engine_world : Collaborators :=
  mkCollaborators []
    (λ tg molecules, Ok tg)
    (λ forcefield tg topology kwargs, Raise (OtherError "No template found for residue 1 (MOL)")).

(** A generator with every nonbonded flag off. *)
Definition uncharged_generator : SystemGenerator.t :=
  SystemGenerator.mk None false false false false true None (mkForceField [] []) [] None.

(** A generator with a barostat specification. *)
Definition barostat_generator : SystemGenerator.t :=
  SystemGenerator.mk (Some (mkBarostat (quantity 1) (quantity 298) 25 0))
    true true true true true None (mkForceField [] []) [] None.

(** A generator with a template generator installed. *)
Definition backed_generator : SystemGenerator.t :=
  SystemGenerator.mk None true true true true true None
    (mkForceField [] ["SMIRNOFFTemplateGenerator"]) []
    (Some (mkTemplateGenerator "SMIRNOFFTemplateGenerator" "openff-1.0.0" None [])).

(** The first step of [create_system] (lines 270-271): the generator after
    the molecules have been forwarded, or the template generator's error. *)
Definition inform (world : Collaborators) (self : SystemGenerator.t)
    (molecules : option (list Molecule)) : result SystemGenerator.t :=
  match SystemGenerator.template_generator self, molecules with
  | Some tg, Some ms =>
      tg' ← tg_add_molecules world tg (Some ms);
      mret (SystemGenerator.set_template_generator self (Some tg'))
  | _, _ => Ok self
  end.

(** Two generators that agree on everything but the template generator. *)
Definition same_settings (self self' : SystemGenerator.t) : Prop :=
  SystemGenerator.barostat self' = SystemGenerator.barostat self ∧
  SystemGenerator.particle_charges self' = SystemGenerator.particle_charges self ∧
  SystemGenerator.exception_charges self' = SystemGenerator.exception_charges self ∧
  SystemGenerator.particle_epsilons self' = SystemGenerator.particle_epsilons self ∧
  SystemGenerator.exception_epsilons self' = SystemGenerator.exception_epsilons self ∧
  SystemGenerator.torsions self' = SystemGenerator.torsions self ∧
  SystemGenerator.postprocess_system self' = SystemGenerator.postprocess_system self ∧
  SystemGenerator.forcefield self' = SystemGenerator.forcefield self ∧
  SystemGenerator.forcefield_kwargs self' = SystemGenerator.forcefield_kwargs self.

(** * Proofs *)

(** ** The result monad *)

Lemma getitem_Ok {A} (l : list A) (i : nat) (a : A) :
  getitem l i = Ok a ↔ l !! i = Some a.
Proof. unfold getitem. destruct (l !! i); split; congruence. Qed.

Lemma getitem_lt {A} (l : list A) (i : nat) :
  i < length l → ∃ a, l !! i = Some a ∧ getitem l i = Ok a.
Proof.
  intros Hi. destruct (lookup_lt_is_Some_2 l i Hi) as [a Ha].
  exists a. split; [done | by apply getitem_Ok].
Qed.

(** ** The bond graph *)

Section BondGraph.

Lemma empty_adjacency {A} (l : list A) (acc : list (gset nat)) :
  foldl (λ acc _, acc ++ [∅]) acc l = acc ++ replicate (length l) ∅.
Proof.
  revert acc. induction l as [|a l IH]; intros acc; simpl.
  - by rewrite app_nil_r.
  - rewrite IH, <- app_assoc. done.
Qed.

Lemma neighbours_replicate_empty (n i j : nat) :
  ¬ neighbours (replicate n ∅) i j.
Proof.
  intros (s & Hs & Hj). apply lookup_replicate in Hs as [-> _]. set_solver.
Qed.

Lemma add_neighbor_spec (adj : list (gset nat)) (i j : nat) :
  i < length adj →
  ∃ adj', add_neighbor adj i j = Ok adj' ∧ length adj' = length adj ∧
    ∀ i' j', neighbours adj' i' j' ↔ neighbours adj i' j' ∨ (i' = i ∧ j' = j).
Proof.
  intros Hi. destruct (getitem_lt adj i Hi) as (s & Hs & Hget).
  exists (<[i := s ∪ {[j]}]> adj). unfold add_neighbor. rewrite Hget. simpl.
  split; [done|]. split; [by rewrite length_insert|].
  intros i' j'. unfold neighbours. destruct (decide (i' = i)) as [->|Hne].
  - rewrite list_lookup_insert_eq by done. split.
    + intros (s' & [= <-] & Hj'). apply elem_of_union in Hj' as [Hj'|Hj'].
      * left. eauto.
      * right. set_solver.
    + intros [(s' & Hs' & Hj')|[_ ->]].
      * exists (s ∪ {[j]}). split; [done|]. rewrite Hs in Hs'. set_solver.
      * exists (s ∪ {[j]}). split; [done|]. set_solver.
  - rewrite list_lookup_insert_ne by done. split; [eauto|].
    intros [H|[? _]]; [done|congruence].
Qed.

Lemma bond_loop_spec (bs : list Bond) (adj : list (gset nat)) :
  Forall (in_range (length adj)) bs →
  ∃ adj',
    for_each bs add_bond adj = Ok adj' ∧
    length adj' = length adj ∧
    ∀ i j, neighbours adj' i j ↔
           neighbours adj i j ∨ ∃ bond, bond ∈ bs ∧ joins bond i j.
Proof.
  revert adj. induction bs as [|b bs IH]; intros adj Hr.
  - exists adj. simpl. split; [done|]. split; [done|].
    intros i j. split; [eauto|]. intros [H|(b & Hb & _)]; [done|].
    by apply elem_of_nil in Hb.
  - apply Forall_cons in Hr as [[H1 H2] Hr]. unfold index.
    destruct (add_neighbor_spec adj (atom1 b) (atom2 b) H1) as (a1 & E1 & L1 & N1).
    destruct (add_neighbor_spec a1 (atom2 b) (atom1 b)) as (a2 & E2 & L2 & N2);
      [by rewrite L1|].
    destruct (IH a2) as (adj' & E & L & N).
    { rewrite L2, L1. done. }
    exists adj'. simpl. unfold add_bond, index. rewrite E1. simpl. rewrite E2. simpl.
    split; [done|]. split; [by rewrite L, L2, L1|].
    intros i j. rewrite N, N2, N1. unfold joins. split.
    + intros [[[H|[-> ->]]|[-> ->]]|(b' & Hb' & Hj)].
      * by left.
      * right. exists b. split; [apply elem_of_cons; by left|]. by left.
      * right. exists b. split; [apply elem_of_cons; by left|]. by right.
      * right. exists b'. split; [apply elem_of_cons; by right|]. done.
    + intros [H|(b' & Hb' & Hj)]; [by left; left; left|].
      apply elem_of_cons in Hb' as [->|Hb'].
      * destruct Hj as [[<- <-]|[<- <-]]; left; [left; by right | by right].
      * right. eauto.
Qed.

Lemma bondedToAtom_spec (topology : Topology) :
  valid_topology topology →
  ∃ adj, bondedToAtom topology = Ok adj ∧
         length adj = length (atoms topology) ∧
         ∀ i j, neighbours adj i j ↔ bonded topology i j.
Proof.
  intros Hv. unfold bondedToAtom. rewrite empty_adjacency. simpl.
  destruct (bond_loop_spec (bonds topology) (replicate (length (atoms topology)) ∅))
    as (adj & E & L & N).
  { rewrite length_replicate. exact Hv. }
  exists adj. split; [exact E|]. split; [by rewrite L, length_replicate|].
  intros i j. rewrite N. unfold bonded. split.
  - intros [H|H]; [by apply neighbours_replicate_empty in H | exact H].
  - intros H. by right.
Qed.

End BondGraph.

(** ** Strings *)

Lemma string_app_assoc (s1 s2 s3 : string) : (s1 +:+ s2) +:+ s3 = s1 +:+ (s2 +:+ s3).
Proof.
  induction s1 as [|c s1 IH]; [done|].
  change (String c ((s1 +:+ s2) +:+ s3) = String c (s1 +:+ (s2 +:+ s3))).
  by rewrite IH.
Qed.

Lemma string_app_nil_r (s : string) : s +:+ "" = s.
Proof.
  induction s as [|c s IH]; [done|].
  change (String c (s +:+ "") = String c s). by rewrite IH.
Qed.

Lemma occurs_in_app_l (part s1 s2 : string) : occurs_in part s1 → occurs_in part (s1 +:+ s2).
Proof.
  intros (before & after & ->). exists before, (after +:+ s2).
  by rewrite !string_app_assoc.
Qed.

Lemma occurs_in_app_r (part s1 s2 : string) : occurs_in part s2 → occurs_in part (s1 +:+ s2).
Proof.
  intros (before & after & ->). exists (s1 +:+ before), after.
  by rewrite !string_app_assoc.
Qed.

Lemma occurs_in_refl (s : string) : occurs_in s s.
Proof. exists "", "". by rewrite string_app_nil_r. Qed.

(** ** Probing the template generator classes *)

Section Probing.
Context (ff : string) (cache : option string).

(** Every class is tried, in order, and each round appends its lines. *)
Lemma probe_log_all (classes : list TemplateGeneratorClass)
    (tg : option TemplateGenerator) (log : list string) :
  (foldl (SystemGenerator.probe ff cache) (tg, log) classes).2
  = log ++ concat (probe_log ff cache <$> classes).
Proof.
  revert tg log. induction classes as [|cls classes IH]; intros tg log.
  - simpl. by rewrite app_nil_r.
  - rewrite fmap_cons. cbn [foldl concat].
    destruct (SystemGenerator.probe ff cache (tg, log) cls) as [tg' log'] eqn:E.
    rewrite IH. unfold SystemGenerator.probe in E. unfold probe_log.
    destruct (construct cls ff cache); injection E as <- <-; simpl;
      by rewrite <- ?app_assoc.
Qed.

(** Classes that reject the identifier leave the selection as it is. *)
Lemma probe_rejected (classes : list TemplateGeneratorClass)
    (tg : option TemplateGenerator) (log : list string) :
  Forall (rejects ff cache) classes →
  (foldl (SystemGenerator.probe ff cache) (tg, log) classes).1 = tg.
Proof.
  revert tg log. induction classes as [|cls classes IH]; intros tg log Hr; [done|].
  apply Forall_cons in Hr as [[e He] Hr]. simpl. rewrite He. by apply IH.
Qed.

(** A class that accepts replaces whatever was selected before. *)
Lemma probe_last_success (pre post : list TemplateGeneratorClass)
    (cls : TemplateGeneratorClass) (instance : TemplateGenerator) :
  construct cls ff cache = Constructed instance →
  Forall (rejects ff cache) post →
  foldl (SystemGenerator.probe ff cache) (None, []) (pre ++ cls :: post)
  = (Some instance, concat (probe_log ff cache <$> (pre ++ cls :: post))).
Proof.
  intros Hc Hr. apply injective_projections.
  - rewrite foldl_app. simpl.
    destruct (foldl (SystemGenerator.probe ff cache) (None, []) pre) as [tg log].
    simpl. rewrite Hc. by apply probe_rejected.
  - by rewrite probe_log_all.
Qed.

Lemma probe_none (classes : list TemplateGeneratorClass) :
  Forall (rejects ff cache) classes →
  foldl (SystemGenerator.probe ff cache) (None, []) classes
  = (None, concat (probe_log ff cache <$> classes)).
Proof.
  intros Hr. apply injective_projections.
  - by apply probe_rejected.
  - by rewrite probe_log_all.
Qed.

End Probing.

(** ** The error message *)

Lemma msg_fold (classes : list TemplateGeneratorClass) (init : string) :
  foldl (λ msg cls,
           msg +:+ "  " +:+ __name__ cls +:+ ": "
               +:+ str_list (INSTALLED_FORCEFIELDS cls) +:+ nl) init classes
  = init +:+ String.concat "" (msg_line <$> classes).
Proof.
  revert init. induction classes as [|cls classes IH]; intros init; simpl.
  - by rewrite string_app_nil_r.
  - rewrite IH. rewrite string_app_assoc. f_equal.
    destruct classes as [|cls' classes]; simpl.
    + by rewrite string_app_nil_r.
    + done.
Qed.

Lemma no_generator_msg_eq (world : Collaborators) (ff : string) :
  SystemGenerator.no_generator_msg world ff
  = msg_header ff +:+ String.concat "" (msg_line <$> subclasses world).
Proof.
  unfold SystemGenerator.no_generator_msg. rewrite msg_fold. f_equal.
  unfold msg_header. by rewrite !string_app_assoc.
Qed.

Lemma msg_line_occurs (classes : list TemplateGeneratorClass) (cls : TemplateGeneratorClass) :
  cls ∈ classes → occurs_in (msg_line cls) (String.concat "" (msg_line <$> classes)).
Proof.
  induction classes as [|c classes IH]; intros Hin; [by apply elem_of_nil in Hin|].
  assert (String.concat "" (msg_line <$> c :: classes)
          = msg_line c +:+ String.concat "" (msg_line <$> classes)) as ->.
  { destruct classes; simpl; [by rewrite string_app_nil_r | done]. }
  apply elem_of_cons in Hin as [->|Hin].
  - apply occurs_in_app_l, occurs_in_refl.
  - by apply occurs_in_app_r, IH.
Qed.

(** ** The force-modification pass *)

Section ModifyForces.

(** A loop over [range(len(l))] that rewrites position [i] from its own
    old value is a map. *)
Lemma foldl_update_seq {A} (f : A → A) (step : list A → nat → list A) :
  (∀ l i, step l i = match l !! i with Some x => <[i := f x]> l | None => l end) →
  ∀ l, foldl step l (seq 0 (length l)) = f <$> l.
Proof.
  intros Hstep l.
  assert (∀ n, n ≤ length l →
            foldl step l (seq 0 n) = (f <$> take n l) ++ drop n l) as Hn.
  { induction n as [|n IH]; intros Hle; [done|].
    rewrite seq_S, foldl_app, IH by lia. simpl. rewrite Hstep.
    destruct (lookup_lt_is_Some_2 l n) as [x Hx]; [lia|].
    assert (length (f <$> take n l) = n) as Hlen.
    { rewrite length_fmap, length_take. lia. }
    rewrite lookup_app_r by lia. rewrite Hlen, Nat.sub_diag.
    rewrite (drop_S l x n Hx). simpl.
    rewrite insert_app_r_alt by lia. rewrite Hlen, Nat.sub_diag. simpl.
    rewrite (take_S_r l n x Hx), fmap_app. simpl. by rewrite <- app_assoc. }
  rewrite Hn by done. by rewrite firstn_all, drop_all, app_nil_r.
Qed.

Lemma modify_force_eq (self : SystemGenerator.t) (force : Force) :
  SystemGenerator.modify_force self force =
  match force with
  | NonbondedForce ps es =>
      NonbondedForce (scaled_particle self <$> ps) (scaled_exception self <$> es)
  | PeriodicTorsionForce ts => PeriodicTorsionForce (scaled_torsion self <$> ts)
  | _ => force
  end.
Proof.
  destruct force as [ps es|ts| | | | |]; try done; simpl; f_equal.
  - apply foldl_update_seq. intros l i. unfold SystemGenerator.modify_particle.
    by destruct (l !! i) as [[[charge sigma] epsilon]|].
  - apply foldl_update_seq. intros l i. unfold SystemGenerator.modify_exception.
    by destruct (l !! i) as [[[[[p1 p2] chargeProd] sigma] epsilon]|].
  - apply foldl_update_seq. intros l i. unfold SystemGenerator.modify_torsion.
    by destruct (l !! i) as [[[[[[[p1 p2] p3] p4] periodicity] phase] K]|].
Qed.

Lemma modify_force_same_frame (self : SystemGenerator.t) (force : Force) :
  same_frame force (SystemGenerator.modify_force self force).
Proof.
  rewrite modify_force_eq. destruct force as [ps es|ts| | | | |]; try constructor.
  - rewrite <- list_fmap_compose. apply list_fmap_ext. by intros i [[charge sigma] epsilon].
  - rewrite <- list_fmap_compose. apply list_fmap_ext.
    by intros i [[[[p1 p2] chargeProd] sigma] epsilon].
  - rewrite <- list_fmap_compose. apply list_fmap_ext.
    by intros i [[[[[[p1 p2] p3] p4] periodicity] phase] K].
Qed.

(** With every flag on, the pass rewrites each term with its own value. *)
Lemma modify_force_all_on (self : SystemGenerator.t) (force : Force) :
  SystemGenerator.particle_charges self = true →
  SystemGenerator.exception_charges self = true →
  SystemGenerator.particle_epsilons self = true →
  SystemGenerator.exception_epsilons self = true →
  SystemGenerator.torsions self = true →
  SystemGenerator.modify_force self force = force.
Proof.
  intros H1 H2 H3 H4 H5. rewrite modify_force_eq.
  destruct force as [ps es|ts| | | | |]; try done; f_equal.
  - rewrite <- (list_fmap_id ps) at 2. apply list_fmap_ext.
    intros i [[charge sigma] epsilon] _. unfold scaled_particle. by rewrite H1, H3.
  - rewrite <- (list_fmap_id es) at 2. apply list_fmap_ext.
    intros i [[[[p1 p2] chargeProd] sigma] epsilon] _. unfold scaled_exception.
    by rewrite H2, H4.
  - rewrite <- (list_fmap_id ts) at 2. apply list_fmap_ext.
    intros i [[[[[[p1 p2] p3] p4] periodicity] phase] K] _. unfold scaled_torsion.
    by rewrite H5.
Qed.

Lemma modify_forces_forces (self : SystemGenerator.t) (seed : Z) (system : System) :
  forces (SystemGenerator._modify_forces self seed system)
  = SystemGenerator.modify_force self <$> (forces system ++ barostat_forces self seed).
Proof.
  unfold SystemGenerator._modify_forces, barostat_forces.
  destruct (SystemGenerator.barostat self); simpl; [done|]. by rewrite app_nil_r.
Qed.

Lemma modify_forces_masses (self : SystemGenerator.t) (seed : Z) (system : System) :
  particle_masses (SystemGenerator._modify_forces self seed system) = particle_masses system.
Proof.
  unfold SystemGenerator._modify_forces. by destruct (SystemGenerator.barostat self).
Qed.

(** With the torsion flag off every barrier height is multiplied by 0. *)
Lemma barrier_heights_scaled (self : SystemGenerator.t) (fs : list Force) :
  SystemGenerator.torsions self = false →
  barrier_heights (mkSystem [] (SystemGenerator.modify_force self <$> fs))
  = mul_zero <$> barrier_heights (mkSystem [] fs).
Proof.
  intros Hoff. unfold barrier_heights. simpl.
  induction fs as [|force fs IH]; [done|].
  rewrite fmap_cons, !bind_cons, fmap_app, IH. f_equal.
  rewrite modify_force_eq. destruct force as [ps es|ts| | | | |]; try done.
  rewrite <- !list_fmap_compose. apply list_fmap_ext.
  intros i [[[[[[p1 p2] p3] p4] periodicity] phase] K] _. simpl. by rewrite Hoff.
Qed.

(** Multiplying finite values by 0 gives zeros. *)
Lemma mul_zero_finite (values : list pyfloat) :
  Forall is_finite values → Forall (λ K, K = Finite 0) (mul_zero <$> values).
Proof.
  intros Hfin. apply Forall_fmap. eapply Forall_impl; [exact Hfin|].
  by intros [q|negative|].
Qed.

(** Harmonic bond and angle forces pass through unchanged. *)
Lemma harmonic_unchanged (self : SystemGenerator.t) (fs : list Force) :
  filter (λ force, is_harmonic force = true) (SystemGenerator.modify_force self <$> fs)
  = filter (λ force, is_harmonic force = true) fs.
Proof.
  induction fs as [|force fs IH]; [done|].
  rewrite fmap_cons, !filter_cons, IH.
  by destruct force.
Qed.

End ModifyForces.

(** * The dummy generator *)

Example dummy_pair_as_written :
  DummySystemGenerator.create_system DummySystemGenerator.module_globals pair2
  = Raise (NameError "unit").
Proof. reflexivity. Qed.

Example dummy_pair_names_supplied :
  DummySystemGenerator.create_system ["unit"; "openmm"] pair2
  = Ok (DummySystemGenerator.ReturnedList [{[1]}; {[0]}]).
Proof. vm_compute. reflexivity. Qed.

(** C1 (the code departs from the documented contract).  Whatever the module
    namespace and the topology, [DummySystemGenerator.create_system] never
    hands back a [System]: it raises, or it returns the adjacency list
    [bondedToAtom] at line 349, before any bond, angle or torsion term is
    built. *)
Theorem dummy_create_system_returns_no_system
    (globals : list string) (topology : Topology) :
  DummySystemGenerator.returns_system
    (DummySystemGenerator.create_system globals topology) = false ∧
  ∀ r, DummySystemGenerator.create_system globals topology = Ok r →
       ∃ adj, r = DummySystemGenerator.ReturnedList adj ∧ bondedToAtom topology = Ok adj.
Proof.
  unfold DummySystemGenerator.create_system.
  destruct (DummySystemGenerator.lookup_global globals "unit"); simpl;
    [|split; [done | intros r [=]]].
  destruct (DummySystemGenerator.lookup_global globals "openmm"); simpl;
    [|split; [done | intros r [=]]].
  destruct (bondedToAtom topology) as [adj|e]; simpl.
  - split; [done|]. intros r [= <-]. by exists adj.
  - split; [done | intros r [=]].
Qed.

(** ** The angle and torsion blocks are never run *)

(** A call of the dummy [create_system] raises or returns at line 349. *)
Lemma dummy_create_system_cases (globals : list string) (topology : Topology) :
  (∃ e, DummySystemGenerator.create_system globals topology = Raise e) ∨
  (∃ adj, DummySystemGenerator.create_system globals topology
          = Ok (DummySystemGenerator.ReturnedList adj)).
Proof.
  unfold DummySystemGenerator.create_system.
  destruct (DummySystemGenerator.lookup_global globals "unit"); simpl; [|eauto].
  destruct (DummySystemGenerator.lookup_global globals "openmm"); simpl; [|eauto].
  destruct (bondedToAtom topology) as [adj|e]; simpl; eauto.
Qed.

(** C6 (the code departs from the claim).  Whatever the module namespace
    and the topology, a call of [DummySystemGenerator.create_system] hands
    back no angle term: the angle enumeration of lines 361-375 lies behind
    the return of line 349 and is never run, so no sequence of angles,
    sorted or not, is ever produced. *)
Theorem dummy_create_system_emits_no_angle (globals : list string) (topology : Topology) :
  returned_angle_terms (DummySystemGenerator.create_system globals topology) = [].
Proof.
  destruct (dummy_create_system_cases globals topology) as [[e ->]|[adj ->]]; done.
Qed.

(** C7 (the code departs from the claim).  For the 4-atom chain 0-1-2-3,
    with each bond written in either direction and whatever the module
    namespace, a call of [DummySystemGenerator.create_system] hands back
    neither the two angle terms nor the torsion term: both enumerations lie
    behind the return of line 349. *)
Theorem dummy_create_system_chain_emits_no_term (globals : list string) (f1 f2 f3 : bool) :
  returned_angle_terms
    (DummySystemGenerator.create_system globals (chain f1 f2 f3)) = [] ∧
  returned_torsion_terms
    (DummySystemGenerator.create_system globals (chain f1 f2 f3)) = [].
Proof.
  destruct (dummy_create_system_cases globals (chain f1 f2 f3)) as [[e ->]|[adj ->]]; done.
Qed.

(** * The system generator *)

Lemma repr_occurs_in_str_list (l : list string) (id : string) :
  id ∈ l → occurs_in (repr_str id) (str_list l).
Proof.
  intros Hin. unfold str_list.
  apply occurs_in_app_r, occurs_in_app_l.
  induction l as [|x l IH]; [by apply elem_of_nil in Hin|].
  apply elem_of_cons in Hin as [->|Hin].
  - destruct l as [|y l]; simpl; [apply occurs_in_refl|].
    apply occurs_in_app_l, occurs_in_refl.
  - destruct l as [|y l]; [by apply elem_of_nil in Hin|].
    change (occurs_in (repr_str id)
              (repr_str x +:+ ", " +:+ String.concat ", " (map repr_str (y :: l)))).
    by apply occurs_in_app_r, occurs_in_app_r, IH.
Qed.

(** ** Construction *)

(** C3 (the code departs from the claim).  When no small-molecule force
    field is requested, construction does not succeed: whatever the other
    arguments, [__init__] ends in the [ValueError] of [add_molecules],
    because line 178 calls it with no template generator installed. *)
Theorem init_without_forcefield_raises (world : Collaborators)
    (forcefields : option (list string)) (forcefield_kwargs : option Kwargs)
    (barostat : option Barostat) (molecules : option (list Molecule))
    (cache : option string) (postprocess_system : option (System → result System)) :
  SystemGenerator.__init__ world forcefields None forcefield_kwargs barostat
    molecules cache postprocess_system
  = ([], Raise (ValueError "You must have a small molecule residue template generator registered to add small molecules")).
Proof. reflexivity. Qed.

(** C4.  When every registered template generator class rejects the
    requested identifier, construction fails with a [ValueError]; its
    message is the two header lines followed by one line per registered
    class, so for every class it holds the line with the class name and the
    list of its supported identifiers, each identifier in it. *)
Theorem init_unsupported_forcefield_message (world : Collaborators)
    (forcefields : option (list string)) (ff : string)
    (forcefield_kwargs : option Kwargs) (barostat : option Barostat)
    (molecules : option (list Molecule)) (cache : option string)
    (postprocess_system : option (System → result System)) :
  Forall (rejects ff cache) (subclasses world) →
  ∃ msg,
    (SystemGenerator.__init__ world forcefields (Some ff) forcefield_kwargs barostat
       molecules cache postprocess_system).2 = Raise (ValueError msg) ∧
    msg = msg_header ff +:+ String.concat "" (msg_line <$> subclasses world) ∧
    ∀ cls, cls ∈ subclasses world →
      occurs_in ("  " +:+ __name__ cls +:+ ": "
                   +:+ str_list (INSTALLED_FORCEFIELDS cls) +:+ nl) msg ∧
      ∀ id, id ∈ INSTALLED_FORCEFIELDS cls →
        occurs_in (repr_str id) (str_list (INSTALLED_FORCEFIELDS cls)).
Proof.
  intros Hr. exists (SystemGenerator.no_generator_msg world ff). split; [|split].
  - unfold SystemGenerator.__init__. rewrite (probe_none ff cache _ Hr). done.
  - apply no_generator_msg_eq.
  - intros cls Hcls. split.
    + rewrite no_generator_msg_eq. by apply occurs_in_app_r, msg_line_occurs.
    + intros id Hid. by apply repr_occurs_in_str_list.
Qed.

Lemma init_unsupported_forcefield_example :
  ∃ msg,
    (SystemGenerator.__init__
       (example_world [GAFFTemplateGenerator; SMIRNOFFTemplateGenerator])
       None (Some "gaff-9") None None None None None).2 = Raise (ValueError msg) ∧
    occurs_in "  GAFFTemplateGenerator: ['gaff-2.11', 'gaff-1.81']" msg.
Proof.
  destruct (init_unsupported_forcefield_message
              (example_world [GAFFTemplateGenerator; SMIRNOFFTemplateGenerator])
              None "gaff-9" None None None None None) as (msg & Hm & _ & Hocc).
  { repeat constructor; eexists; vm_compute; reflexivity. }
  exists msg. split; [exact Hm|].
  destruct (Hocc GAFFTemplateGenerator) as [(before & after & ->) _].
  { apply elem_of_cons. by left. }
  exists before, (nl +:+ after). vm_compute. reflexivity.
Defined.

(** C5.  When the class list is [pre ++ cls :: post], [cls] accepts the
    identifier and every class after it rejects it, the loop tries every
    class in order (one log entry per class, and the two failure lines for
    each rejection) and ends with the instance built by [cls] selected,
    whatever the classes before it did; the constructed generator holds
    that instance, informed of the molecules. *)
Theorem probing_installs_last_success (world : Collaborators)
    (forcefields : option (list string)) (ff : string)
    (forcefield_kwargs : option Kwargs) (barostat : option Barostat)
    (molecules : option (list Molecule)) (cache : option string)
    (postprocess_system : option (System → result System))
    (pre post : list TemplateGeneratorClass) (cls : TemplateGeneratorClass)
    (instance : TemplateGenerator) :
  subclasses world = pre ++ cls :: post →
  construct cls ff cache = Constructed instance →
  Forall (rejects ff cache) post →
  foldl (SystemGenerator.probe ff cache) (None, []) (subclasses world)
  = (Some instance, concat (probe_log ff cache <$> subclasses world)) ∧
  SystemGenerator.__init__ world forcefields (Some ff) forcefield_kwargs barostat
    molecules cache postprocess_system
  = (concat (probe_log ff cache <$> subclasses world),
     SystemGenerator.add_molecules world
       (SystemGenerator.mk barostat true true true true true postprocess_system
          (mkForceField (default [] forcefields) [tg_class instance])
          (default [] forcefield_kwargs) (Some instance))
       molecules) ∧
  ∀ self,
    (SystemGenerator.__init__ world forcefields (Some ff) forcefield_kwargs barostat
       molecules cache postprocess_system).2 = Ok self →
    ∃ tg, tg_add_molecules world instance molecules = Ok tg ∧
          SystemGenerator.template_generator self = Some tg.
Proof.
  intros Hsplit Hc Hr.
  assert (foldl (SystemGenerator.probe ff cache) (None, []) (subclasses world)
          = (Some instance, concat (probe_log ff cache <$> subclasses world))) as Hprobe.
  { rewrite Hsplit. by apply probe_last_success. }
  assert (SystemGenerator.__init__ world forcefields (Some ff) forcefield_kwargs barostat
            molecules cache postprocess_system
          = (concat (probe_log ff cache <$> subclasses world),
             SystemGenerator.add_molecules world
               (SystemGenerator.mk barostat true true true true true postprocess_system
                  (mkForceField (default [] forcefields) [tg_class instance])
                  (default [] forcefield_kwargs) (Some instance))
               molecules)) as Hinit.
  { unfold SystemGenerator.__init__. rewrite Hprobe. done. }
  split; [exact Hprobe|]. split; [exact Hinit|].
  intros self. rewrite Hinit. unfold SystemGenerator.add_molecules. simpl.
  destruct (tg_add_molecules world instance molecules) as [tg|e]; simpl; [|done].
  intros [= <-]. by exists tg.
Qed.

Lemma probing_installs_last_success_example :
  ∃ self,
    (SystemGenerator.__init__
       (example_world [SMIRNOFFTemplateGenerator; OtherTemplateGenerator; GAFFTemplateGenerator])
       None (Some "openff-1.0.0") None None None None None).2 = Ok self ∧
    tg_class <$> SystemGenerator.template_generator self = Some "OtherTemplateGenerator".
Proof.
  destruct (probing_installs_last_success
              (example_world [SMIRNOFFTemplateGenerator; OtherTemplateGenerator;
                              GAFFTemplateGenerator])
              None "openff-1.0.0" None None None None None
              [SMIRNOFFTemplateGenerator] [GAFFTemplateGenerator] OtherTemplateGenerator
              (mkTemplateGenerator "OtherTemplateGenerator" "openff-1.0.0" None []))
    as (_ & Hinit & _).
  - reflexivity.
  - vm_compute. reflexivity.
  - repeat constructor. eexists. vm_compute. reflexivity.
  - rewrite Hinit. eexists. split; [vm_compute; reflexivity|]. reflexivity.
Defined.

(** C9.  Whatever the constructor arguments, a generator that [__init__]
    returns has its five inclusion flags set, and its modification pass
    leaves every term of every force as the engine assembled it (it only
    appends the barostat when one is configured). *)
Theorem init_flags_all_on (world : Collaborators)
    (forcefields : option (list string)) (small_molecule_forcefield : option string)
    (forcefield_kwargs : option Kwargs) (barostat : option Barostat)
    (molecules : option (list Molecule)) (cache : option string)
    (postprocess_system : option (System → result System)) (self : SystemGenerator.t) :
  (SystemGenerator.__init__ world forcefields small_molecule_forcefield forcefield_kwargs
     barostat molecules cache postprocess_system).2 = Ok self →
  SystemGenerator.particle_charges self = true ∧
  SystemGenerator.exception_charges self = true ∧
  SystemGenerator.particle_epsilons self = true ∧
  SystemGenerator.exception_epsilons self = true ∧
  SystemGenerator.torsions self = true ∧
  ∀ seed system,
    SystemGenerator._modify_forces self seed system
    = mkSystem (particle_masses system) (forces system ++ barostat_forces self seed).
Proof.
  intros Hinit.
  assert (SystemGenerator.particle_charges self = true ∧
          SystemGenerator.exception_charges self = true ∧
          SystemGenerator.particle_epsilons self = true ∧
          SystemGenerator.exception_epsilons self = true ∧
          SystemGenerator.torsions self = true) as Hflags.
  { unfold SystemGenerator.__init__ in Hinit.
    destruct small_molecule_forcefield as [ff|]; [|by simpl in Hinit].
    destruct (foldl (SystemGenerator.probe ff cache) (None, []) (subclasses world))
      as [[instance|] log]; [|by simpl in Hinit].
    simpl in Hinit. unfold SystemGenerator.add_molecules in Hinit. simpl in Hinit.
    destruct (tg_add_molecules world instance molecules) as [tg|e]; [|by simpl in Hinit].
    simpl in Hinit. injection Hinit as <-. done. }
  destruct Hflags as (H1 & H2 & H3 & H4 & H5).
  split; [done|]. split; [done|]. split; [done|]. split; [done|]. split; [done|].
  intros seed system.
  destruct (SystemGenerator._modify_forces self seed system) as [masses fs] eqn:E.
  f_equal.
  - by rewrite <- (modify_forces_masses self seed system), E.
  - change fs with (forces (mkSystem masses fs)).
    rewrite <- E, modify_forces_forces.
    rewrite <- (list_fmap_id (forces system ++ barostat_forces self seed)) at 2.
    apply list_fmap_ext. intros i force _. by apply modify_force_all_on.
Qed.

Lemma init_flags_all_on_example :
  ∃ self,
    (SystemGenerator.__init__
       (example_world [GAFFTemplateGenerator; SMIRNOFFTemplateGenerator])
       None (Some "openff-1.0.0") None None None None None).2 = Ok self ∧
    SystemGenerator.torsions self = true ∧
    SystemGenerator._modify_forces self 7 chain4_system = chain4_system.
Proof.
  eexists. split; [vm_compute; reflexivity|].
  edestruct (init_flags_all_on
               (example_world [GAFFTemplateGenerator; SMIRNOFFTemplateGenerator])
               None (Some "openff-1.0.0") None None None None None)
    as (_ & _ & _ & _ & Ht & Hm).
  { vm_compute. reflexivity. }
  split; [exact Ht|]. rewrite Hm. reflexivity.
Defined.

(** ** [create_system] *)

(** C2, as stated, fails: with no template generator installed and a
    molecule supplied, [create_system] raises nothing and returns the
    engine's system. *)
Lemma create_system_ignores_molecules_example :
  SystemGenerator.template_generator bare_generator = None ∧
  SystemGenerator.create_system (example_world []) bare_generator chain4 (Some ["CCO"]) 0
  = (bare_generator, Ok chain4_system).
Proof. split; [reflexivity | vm_compute; reflexivity]. Qed.

(** C2, amended.  With no template generator installed, supplied molecules
    are dropped without an error: the call leaves the generator as it was
    and does exactly what the call without molecules does; when the engine
    assembles a system and no hook is configured, that system, after the
    modification pass, is returned. *)
Theorem create_system_drops_molecules (world : Collaborators)
    (self : SystemGenerator.t) (topology : Topology)
    (molecules : list Molecule) (seed : Z) :
  SystemGenerator.template_generator self = None →
  SystemGenerator.create_system world self topology (Some molecules) seed
  = SystemGenerator.create_system world self topology None seed ∧
  (SystemGenerator.create_system world self topology (Some molecules) seed).1 = self ∧
  ∀ system,
    createSystem world (SystemGenerator.forcefield self) None topology
      (SystemGenerator.forcefield_kwargs self) = Ok system →
    SystemGenerator.postprocess_system self = None →
    (SystemGenerator.create_system world self topology (Some molecules) seed).2
    = Ok (SystemGenerator._modify_forces self seed system).
Proof.
  intros Hnone. unfold SystemGenerator.create_system. rewrite Hnone.
  split; [done|]. split; [done|].
  intros system Hsys Hhook. simpl. rewrite Hnone, Hsys, Hhook. done.
Qed.

Lemma create_system_drops_molecules_example :
  (SystemGenerator.create_system (example_world []) bare_generator chain4
     (Some ["CCO"]) 0).1 = bare_generator.
Proof.
  destruct (create_system_drops_molecules (example_world []) bare_generator chain4
              ["CCO"] 0) as (_ & Hself & _).
  - reflexivity.
  - exact Hself.
Defined.

(** ** The modification pass inside [create_system] *)

(** C8, as stated, fails: with the torsion flag off and a finishing hook
    that sets barrier heights, the returned system has a torsion with
    barrier height 1; and with no hook, a torsion the engine assembled with
    an infinite barrier height is returned with barrier height NaN. *)
Lemma create_system_hook_restores_barrier :
  SystemGenerator.torsions hooked_generator = false ∧
  (∃ system,
     (SystemGenerator.create_system (example_world []) hooked_generator chain4 None 0).2
     = Ok system ∧
     barrier_heights system = [quantity 1] ∧
     quantity 1 ≠ Finite 0) ∧
  SystemGenerator.torsions torsionless_generator = false ∧
  ∃ system,
    (SystemGenerator.create_system infinite_barrier_world torsionless_generator
       chain4 None 0).2 = Ok system ∧
    barrier_heights system = [NaN] ∧
    NaN ≠ Finite 0.
Proof.
  split; [reflexivity|]. split.
  - eexists. split; [vm_compute; reflexivity|].
    split; [vm_compute; reflexivity | discriminate].
  - split; [reflexivity|]. eexists. split; [vm_compute; reflexivity|].
    split; [vm_compute; reflexivity | discriminate].
Qed.

(** C8, amended.  On every call of [create_system] with the torsion flag
    off that returns a system, the system produced by the modification pass
    (the returned system when no finishing hook is configured, the hook's
    argument otherwise) has, on every periodic torsion, the barrier height
    the engine assembled multiplied by 0, which is zero wherever the
    assembled height is finite (and NaN where it is infinite or NaN), and
    its harmonic bond and angle forces are those the engine assembled; the
    flag is still off afterwards, so the same holds on the next call. *)
Theorem create_system_torsions_off (world : Collaborators)
    (self : SystemGenerator.t) (topology : Topology)
    (molecules : option (list Molecule)) (seed : Z) (returned : System) :
  SystemGenerator.torsions self = false →
  (SystemGenerator.create_system world self topology molecules seed).2 = Ok returned →
  ∃ self' assembled modified,
    (SystemGenerator.create_system world self topology molecules seed).1 = self' ∧
    SystemGenerator.torsions self' = false ∧
    createSystem world (SystemGenerator.forcefield self')
      (SystemGenerator.template_generator self') topology
      (SystemGenerator.forcefield_kwargs self') = Ok assembled ∧
    modified = SystemGenerator._modify_forces self' seed assembled ∧
    match SystemGenerator.postprocess_system self' with
    | Some hook => hook modified = Ok returned
    | None => returned = modified
    end ∧
    barrier_heights modified = mul_zero <$> barrier_heights assembled ∧
    (Forall is_finite (barrier_heights assembled) →
     Forall (λ K, K = Finite 0) (barrier_heights modified)) ∧
    harmonic_forces modified = harmonic_forces assembled.
Proof.
  intros Hoff Hret. unfold SystemGenerator.create_system in *.
  set (informed :=
         match SystemGenerator.template_generator self, molecules with
         | Some tg, Some ms =>
             tg' ← tg_add_molecules world tg (Some ms);
             mret (SystemGenerator.set_template_generator self (Some tg'))
         | _, _ => Ok self
         end) in *.
  assert (∀ self', informed = Ok self' → SystemGenerator.torsions self' = false) as Hkeep.
  { intros self' E. unfold informed in E.
    destruct (SystemGenerator.template_generator self) as [tg|], molecules as [ms|];
      try (injection E as <-; exact Hoff).
    simpl in E. destruct (tg_add_molecules world tg (Some ms)); [|done].
    simpl in E. injection E as <-. exact Hoff. }
  destruct informed as [self'|e]; [|done]. simpl in Hret.
  specialize (Hkeep self' eq_refl).
  destruct (createSystem world (SystemGenerator.forcefield self')
              (SystemGenerator.template_generator self') topology
              (SystemGenerator.forcefield_kwargs self')) as [assembled|e] eqn:Hsys;
    [|done].
  simpl in Hret.
  exists self', assembled, (SystemGenerator._modify_forces self' seed assembled).
  split; [done|]. split; [done|]. split; [done|]. split; [done|]. split.
  { destruct (SystemGenerator.postprocess_system self'); [done | congruence]. }
  assert (barrier_heights (SystemGenerator._modify_forces self' seed assembled)
          = mul_zero <$> barrier_heights assembled) as Hscaled.
  { pose proof (barrier_heights_scaled self'
                  (forces assembled ++ barostat_forces self' seed) Hkeep) as Hs.
    unfold barrier_heights in *. simpl in Hs.
    rewrite modify_forces_forces, Hs. f_equal.
    rewrite bind_app. unfold barostat_forces.
    destruct (SystemGenerator.barostat self'); simpl; by rewrite app_nil_r. }
  split; [exact Hscaled|]. split.
  - intros Hfin. rewrite Hscaled. by apply mul_zero_finite.
  - unfold harmonic_forces. rewrite modify_forces_forces, harmonic_unchanged.
    unfold barostat_forces. destruct (SystemGenerator.barostat self'); [|by rewrite app_nil_r].
    by rewrite filter_app, filter_cons, filter_nil, app_nil_r.
Qed.

Lemma create_system_torsions_off_example :
  ∃ returned,
    (SystemGenerator.create_system (example_world []) torsionless_generator chain4 None 0).2
    = Ok returned ∧
    barrier_heights returned = [Finite 0] ∧
    harmonic_forces returned = harmonic_forces chain4_system.
Proof.
  eexists. split; [vm_compute; reflexivity|].
  edestruct (create_system_torsions_off (example_world []) torsionless_generator chain4
               None 0) as (self' & assembled & modified & Hs & _ & Ha & -> & Hr & _ & _ & Hh).
  - reflexivity.
  - vm_compute. reflexivity.
  - vm_compute in Hs. subst self'. injection Ha as <-. simpl in Hr.
    split; [vm_compute; reflexivity|]. rewrite Hr. exact Hh.
Defined.

(** C10.  Whatever the flags, the modification pass keeps the particle
    masses, the number and order of the forces (the barostat, when one is
    configured, is appended), every force that is not a nonbonded or a
    periodic torsion force, and in those two the sigma of every particle
    and exception, the particle pair of every exception, and the four
    particles, periodicity and phase of every torsion. *)
Theorem modify_forces_frame (self : SystemGenerator.t) (seed : Z) (system : System) :
  particle_masses (SystemGenerator._modify_forces self seed system)
  = particle_masses system ∧
  Forall2 same_frame (forces system ++ barostat_forces self seed)
    (forces (SystemGenerator._modify_forces self seed system)).
Proof.
  split; [apply modify_forces_masses|].
  rewrite modify_forces_forces. apply Forall2_fmap_r, Forall_Forall2_diag, Forall_forall.
  intros force _. apply modify_force_same_frame.
Qed.

(** * Further properties *)

(** ** The adjacency list that [create_system] returns *)

Lemma add_neighbor_out_of_range (adj : list (gset nat)) (i j : nat) :
  length adj ≤ i →
  add_neighbor adj i j = Raise (IndexError "list index out of range").
Proof.
  intros Hi. unfold add_neighbor, getitem.
  by rewrite (lookup_ge_None_2 adj i Hi).
Qed.

Lemma bond_loop_out_of_range (bs : list Bond) (adj : list (gset nat)) :
  ¬ Forall (in_range (length adj)) bs →
  for_each bs add_bond adj = Raise (IndexError "list index out of range").
Proof.
  revert adj. induction bs as [|b bs IH]; intros adj Hbad.
  - destruct Hbad. constructor.
  - simpl. unfold add_bond, index.
    destruct (decide (atom1 b < length adj)) as [H1|H1].
    + destruct (add_neighbor_spec adj (atom1 b) (atom2 b) H1) as (a1 & E1 & L1 & _).
      rewrite E1. simpl.
      destruct (decide (atom2 b < length adj)) as [H2|H2].
      * destruct (add_neighbor_spec a1 (atom2 b) (atom1 b)) as (a2 & E2 & L2 & _);
          [by rewrite L1|].
        rewrite E2. simpl. apply IH. rewrite L2, L1. intros Hr. apply Hbad.
        constructor; [by split | done].
      * rewrite add_neighbor_out_of_range by (rewrite L1; lia). done.
    + rewrite add_neighbor_out_of_range by lia. done.
Qed.

(** X3.  A topology with a bond that references a missing atom makes the
    adjacency construction raise [IndexError], so [create_system] raises for
    every module namespace and returns nothing. *)
Theorem dummy_create_system_index_error (topology : Topology) :
  ¬ valid_topology topology →
  bondedToAtom topology = Raise (IndexError "list index out of range") ∧
  ∀ globals, ∃ e, DummySystemGenerator.create_system globals topology = Raise e.
Proof.
  intros Hbad.
  assert (bondedToAtom topology = Raise (IndexError "list index out of range")) as E.
  { unfold bondedToAtom. rewrite empty_adjacency. simpl.
    apply bond_loop_out_of_range. by rewrite length_replicate. }
  split; [exact E|]. intros globals.
  unfold DummySystemGenerator.create_system.
  destruct (DummySystemGenerator.lookup_global globals "unit") as [[]|e1]; simpl; [|eauto].
  destruct (DummySystemGenerator.lookup_global globals "openmm") as [[]|e2]; simpl; [|eauto].
  rewrite E. simpl. eauto.
Qed.

Lemma dummy_create_system_index_error_dangling :
  bondedToAtom dangling = Raise (IndexError "list index out of range").
Proof.
  apply (dummy_create_system_index_error dangling).
  unfold valid_topology, in_range. simpl. intros Hv.
  apply Forall_cons in Hv as [_ Hv]. apply Forall_cons in Hv as [[_ H2] _].
  simpl in H2. lia.
Defined.

(** ** The modification pass, flag by flag *)

Lemma kept_or_zero_fmap {A} (flag : bool) (get : A → pyfloat) (f : A → A) (l : list A) :
  (∀ x, get (f x) = if flag then get x else mul_zero (get x)) →
  get <$> (f <$> l) = kept_or_zero flag (get <$> l).
Proof.
  intros Hf. rewrite <- list_fmap_compose. unfold kept_or_zero.
  destruct flag.
  - apply list_fmap_ext. intros i x _. simpl. apply Hf.
  - rewrite <- list_fmap_compose. apply list_fmap_ext. intros i x _. simpl.
    apply Hf.
Qed.

(** X5.  For every nonbonded force of the system, the force at the same
    position after the modification pass is a nonbonded force whose
    particle charges, particle epsilons, exception charge products and
    exception epsilons are each the original values when the flag of that
    class is on and the original values multiplied by 0 when it is off
    (zero for a finite value, NaN for an infinite or NaN one),
    independently of the other flags. *)
Theorem nonbonded_flags_zero_their_class (self : SystemGenerator.t) (seed : Z)
    (system : System) (i : nat)
    (ps : list ParticleParameters) (es : list ExceptionParameters) :
  forces system !! i = Some (NonbondedForce ps es) →
  ∃ ps' es',
    forces (SystemGenerator._modify_forces self seed system) !! i
    = Some (NonbondedForce ps' es') ∧
    particle_charge <$> ps'
    = kept_or_zero (SystemGenerator.particle_charges self) (particle_charge <$> ps) ∧
    particle_epsilon <$> ps'
    = kept_or_zero (SystemGenerator.particle_epsilons self) (particle_epsilon <$> ps) ∧
    exception_chargeProd <$> es'
    = kept_or_zero (SystemGenerator.exception_charges self) (exception_chargeProd <$> es) ∧
    exception_epsilon <$> es'
    = kept_or_zero (SystemGenerator.exception_epsilons self) (exception_epsilon <$> es).
Proof.
  intros Hi. exists (scaled_particle self <$> ps), (scaled_exception self <$> es).
  split.
  { rewrite modify_forces_forces, list_lookup_fmap.
    rewrite lookup_app_l by (by eapply lookup_lt_Some).
    rewrite Hi. exact (f_equal Some (modify_force_eq self (NonbondedForce ps es))). }
  split; [|split; [|split]]; apply kept_or_zero_fmap.
  - by intros [[charge sigma] epsilon].
  - by intros [[charge sigma] epsilon].
  - by intros [[[[p1 p2] chargeProd] sigma] epsilon].
  - by intros [[[[p1 p2] chargeProd] sigma] epsilon].
Qed.

Lemma nonbonded_flags_zero_their_class_example :
  ∃ ps' es',
    forces (SystemGenerator._modify_forces uncharged_generator 0 chain4_system) !! 3
    = Some (NonbondedForce ps' es') ∧
    particle_charge <$> ps' = [Finite 0; Finite 0; Finite 0; Finite 0].
Proof.
  edestruct (nonbonded_flags_zero_their_class uncharged_generator 0 chain4_system 3)
    as (ps' & es' & Hf & Hc & _).
  - reflexivity.
  - exists ps', es'. split; [exact Hf|]. rewrite Hc. reflexivity.
Defined.

Lemma mul_zero_idem (x : pyfloat) : mul_zero (mul_zero x) = mul_zero x.
Proof. by destruct x. Qed.

Lemma modify_force_idempotent (self : SystemGenerator.t) (force : Force) :
  SystemGenerator.modify_force self (SystemGenerator.modify_force self force)
  = SystemGenerator.modify_force self force.
Proof.
  rewrite !modify_force_eq. destruct force as [ps es|ts| | | | |]; try done; f_equal;
    rewrite <- list_fmap_compose; apply list_fmap_ext.
  - intros i [[charge sigma] epsilon] _. simpl.
    destruct (SystemGenerator.particle_charges self),
             (SystemGenerator.particle_epsilons self); by rewrite ?mul_zero_idem.
  - intros i [[[[p1 p2] chargeProd] sigma] epsilon] _. simpl.
    destruct (SystemGenerator.exception_charges self),
             (SystemGenerator.exception_epsilons self); by rewrite ?mul_zero_idem.
  - intros i [[[[[[p1 p2] p3] p4] periodicity] phase] K] _. simpl.
    destruct (SystemGenerator.torsions self); by rewrite ?mul_zero_idem.
Qed.

(** X6.  Running the modification pass a second time with the same
    generator changes no term of any force: the forces are those of the
    first pass, followed by one more barostat when a barostat is
    configured; the particle masses are untouched. *)
Theorem modify_forces_twice (self : SystemGenerator.t) (seed seed' : Z) (system : System) :
  forces (SystemGenerator._modify_forces self seed'
            (SystemGenerator._modify_forces self seed system))
  = forces (SystemGenerator._modify_forces self seed system) ++ barostat_forces self seed' ∧
  particle_masses (SystemGenerator._modify_forces self seed'
                     (SystemGenerator._modify_forces self seed system))
  = particle_masses system.
Proof.
  split; [|by rewrite !modify_forces_masses].
  rewrite (modify_forces_forces self seed'), fmap_app. f_equal.
  - rewrite modify_forces_forces, <- list_fmap_compose.
    apply list_fmap_ext. intros i force _. simpl. apply modify_force_idempotent.
  - unfold barostat_forces. by destruct (SystemGenerator.barostat self).
Qed.

(** ** [create_system] step by step *)

Section CreateSystem.
Context (world : Collaborators).

Lemma create_system_unfold (self : SystemGenerator.t) (topology : Topology)
    (molecules : option (list Molecule)) (seed : Z) :
  SystemGenerator.create_system world self topology molecules seed
  = match inform world self molecules with
    | Raise e => (self, Raise e)
    | Ok self' =>
        (self',
         system ← createSystem world (SystemGenerator.forcefield self')
                    (SystemGenerator.template_generator self') topology
                    (SystemGenerator.forcefield_kwargs self');
         let system := SystemGenerator._modify_forces self' seed system in
         match SystemGenerator.postprocess_system self' with
         | Some hook => hook system
         | None => Ok system
         end)
    end.
Proof. reflexivity. Qed.

Lemma inform_cases (self : SystemGenerator.t) (molecules : option (list Molecule)) :
  inform world self molecules = Ok self ∨
  ∃ tg ms, SystemGenerator.template_generator self = Some tg ∧ molecules = Some ms ∧
    ((∃ tg', tg_add_molecules world tg (Some ms) = Ok tg' ∧
             inform world self molecules
             = Ok (SystemGenerator.set_template_generator self (Some tg'))) ∨
     (∃ e, tg_add_molecules world tg (Some ms) = Raise e ∧
           inform world self molecules = Raise e)).
Proof.
  unfold inform.
  destruct (SystemGenerator.template_generator self) as [tg|]; [|by left].
  destruct molecules as [ms|]; [|by left].
  right. exists tg, ms. split; [done|]. split; [done|].
  destruct (tg_add_molecules world tg (Some ms)) as [tg'|e]; simpl; [left|right]; eauto.
Qed.

Lemma inform_same_settings (self self' : SystemGenerator.t)
    (molecules : option (list Molecule)) :
  inform world self molecules = Ok self' → same_settings self self'.
Proof.
  intros E. destruct (inform_cases self molecules)
    as [E'|(tg & ms & _ & _ & [(tg' & _ & E')|(e & _ & E')])];
    rewrite E' in E; [injection E as <-|injection E as <-|discriminate];
    by repeat split.
Qed.

Lemma create_system_fst (self : SystemGenerator.t) (topology : Topology)
    (molecules : option (list Molecule)) (seed : Z) :
  (SystemGenerator.create_system world self topology molecules seed).1
  = match inform world self molecules with Ok self' => self' | Raise _ => self end.
Proof. rewrite create_system_unfold. by destruct (inform world self molecules). Qed.

End CreateSystem.

(** X7.  When a barostat is configured and no finishing hook, the last
    force of every system [create_system] returns is a Monte Carlo barostat
    with the configured pressure, temperature and frequency and with the
    seed drawn for this call; it is the only force added to those the
    engine assembled for this call (for the generator as the call leaves
    it), the particle masses are the engine's, and the generator keeps its
    barostat specification. *)
Theorem create_system_appends_barostat (world : Collaborators)
    (self : SystemGenerator.t) (topology : Topology)
    (molecules : option (list Molecule)) (seed : Z) (b : Barostat) (returned : System) :
  SystemGenerator.barostat self = Some b →
  SystemGenerator.postprocess_system self = None →
  (SystemGenerator.create_system world self topology molecules seed).2 = Ok returned →
  last (forces returned)
  = Some (MonteCarloBarostat
            (mkBarostat (DefaultPressure b) (DefaultTemperature b) (Frequency b) seed)) ∧
  SystemGenerator.barostat
    (SystemGenerator.create_system world self topology molecules seed).1 = Some b ∧
  ∃ self' assembled,
    inform world self molecules = Ok self' ∧
    (SystemGenerator.create_system world self topology molecules seed).1 = self' ∧
    createSystem world (SystemGenerator.forcefield self')
      (SystemGenerator.template_generator self') topology
      (SystemGenerator.forcefield_kwargs self') = Ok assembled ∧
    returned = SystemGenerator._modify_forces self' seed assembled ∧
    length (forces returned) = S (length (forces assembled)) ∧
    particle_masses returned = particle_masses assembled.
Proof.
  intros Hb Hhook Hret. rewrite create_system_fst.
  rewrite create_system_unfold in Hret.
  destruct (inform world self molecules) as [self'|e] eqn:Hinf; [|done].
  destruct (inform_same_settings world self self' molecules Hinf)
    as (Hb' & _ & _ & _ & _ & _ & Hh' & _).
  rewrite Hb in Hb'. rewrite Hhook in Hh'. simpl in Hret.
  destruct (createSystem world (SystemGenerator.forcefield self')
              (SystemGenerator.template_generator self') topology
              (SystemGenerator.forcefield_kwargs self')) as [assembled|e] eqn:Hsys; [|done].
  simpl in Hret. rewrite Hh' in Hret. injection Hret as <-.
  assert (barostat_forces self' seed
          = [MonteCarloBarostat
               (mkBarostat (DefaultPressure b) (DefaultTemperature b) (Frequency b) seed)])
    as Hbf by (unfold barostat_forces; by rewrite Hb').
  split; [|split; [done|]].
  - rewrite modify_forces_forces, Hbf, fmap_app. simpl. by rewrite last_snoc.
  - exists self', assembled. split; [done|]. split; [done|]. split; [done|].
    split; [done|]. split.
    + rewrite modify_forces_forces, Hbf, length_fmap, length_app. simpl. lia.
    + apply modify_forces_masses.
Qed.

Lemma create_system_appends_barostat_example :
  ∃ returned,
    (SystemGenerator.create_system (example_world []) barostat_generator chain4 None 42).2
    = Ok returned ∧
    last (forces returned)
    = Some (MonteCarloBarostat (mkBarostat (quantity 1) (quantity 298) 25 42)).
Proof.
  eexists. split; [vm_compute; reflexivity|].
  edestruct (create_system_appends_barostat (example_world []) barostat_generator chain4
               None 42) as (Hlast & _).
  - reflexivity.
  - reflexivity.
  - vm_compute. reflexivity.
  - exact Hlast.
Defined.

(** X8.  With a template generator installed, [create_system] called with
    molecules is [add_molecules] followed by [create_system] without
    molecules: same generator afterwards, same system or error; when
    [add_molecules] raises, so does [create_system], with the same error and
    before the engine is asked. *)
Theorem create_system_is_add_molecules_then_create (world : Collaborators)
    (self : SystemGenerator.t) (topology : Topology)
    (molecules : list Molecule) (seed : Z) (tg : TemplateGenerator) :
  SystemGenerator.template_generator self = Some tg →
  SystemGenerator.create_system world self topology (Some molecules) seed
  = match SystemGenerator.add_molecules world self (Some molecules) with
    | Ok self' => SystemGenerator.create_system world self' topology None seed
    | Raise e => (self, Raise e)
    end.
Proof.
  intros Htg. rewrite create_system_unfold.
  unfold inform, SystemGenerator.add_molecules. rewrite Htg.
  destruct (tg_add_molecules world tg (Some molecules)) as [tg'|e]; simpl; [|done].
  rewrite create_system_unfold. unfold inform. simpl. done.
Qed.

Lemma create_system_is_add_molecules_then_create_example :
  ∃ self',
    SystemGenerator.add_molecules (example_world []) backed_generator (Some ["CCO"])
    = Ok self' ∧
    SystemGenerator.create_system (example_world []) backed_generator chain4
      (Some ["CCO"]) 0
    = SystemGenerator.create_system (example_world []) self' chain4 None 0.
Proof.
  eexists. split; [vm_compute; reflexivity|].
  exact (create_system_is_add_molecules_then_create (example_world []) backed_generator
           chain4 ["CCO"] 0
           (mkTemplateGenerator "SMIRNOFFTemplateGenerator" "openff-1.0.0" None [])
           eq_refl).
Defined.

(** X9.  Whatever its outcome, a call of [create_system] leaves the
    barostat specification, the five inclusion flags, the finishing hook,
    the engine object and the keyword arguments of the generator as they
    were; the template generator is either the one before the call or the
    one its own [add_molecules] returned for the supplied molecules. *)
Theorem create_system_keeps_settings (world : Collaborators)
    (self : SystemGenerator.t) (topology : Topology)
    (molecules : option (list Molecule)) (seed : Z) :
  same_settings self (SystemGenerator.create_system world self topology molecules seed).1 ∧
  (SystemGenerator.template_generator
     (SystemGenerator.create_system world self topology molecules seed).1
   = SystemGenerator.template_generator self ∨
   ∃ tg ms tg',
     SystemGenerator.template_generator self = Some tg ∧ molecules = Some ms ∧
     tg_add_molecules world tg (Some ms) = Ok tg' ∧
     SystemGenerator.template_generator
       (SystemGenerator.create_system world self topology molecules seed).1 = Some tg').
Proof.
  rewrite create_system_fst.
  destruct (inform_cases world self molecules)
    as [E|(tg & ms & Htg & Hms & [(tg' & Hadd & E)|(e & Hadd & E)])]; rewrite E.
  - split; [by repeat split | by left].
  - split; [by repeat split|]. right. exists tg, ms, tg'. by repeat split.
  - split; [by repeat split | by left].
Qed.

(** X10.  [create_system] raises nothing of its own: when a call ends in an
    exception, that exception is the one raised by the template generator's
    [add_molecules] on the supplied molecules, by the engine's
    [createSystem], or by the finishing hook on the modified system. *)
Theorem create_system_raises_only_collaborator_errors (world : Collaborators)
    (self : SystemGenerator.t) (topology : Topology)
    (molecules : option (list Molecule)) (seed : Z) (e : exn) :
  (SystemGenerator.create_system world self topology molecules seed).2 = Raise e →
  (∃ tg ms, SystemGenerator.template_generator self = Some tg ∧ molecules = Some ms ∧
            tg_add_molecules world tg (Some ms) = Raise e) ∨
  (∃ self', inform world self molecules = Ok self' ∧
            createSystem world (SystemGenerator.forcefield self')
              (SystemGenerator.template_generator self') topology
              (SystemGenerator.forcefield_kwargs self') = Raise e) ∨
  (∃ self' assembled hook,
     inform world self molecules = Ok self' ∧
     createSystem world (SystemGenerator.forcefield self')
       (SystemGenerator.template_generator self') topology
       (SystemGenerator.forcefield_kwargs self') = Ok assembled ∧
     SystemGenerator.postprocess_system self' = Some hook ∧
     hook (SystemGenerator._modify_forces self' seed assembled) = Raise e).
Proof.
  intros Hret. rewrite create_system_unfold in Hret.
  destruct (inform world self molecules) as [self'|e'] eqn:E.
  - right. cbn [snd] in Hret.
    destruct (createSystem world (SystemGenerator.forcefield self')
                (SystemGenerator.template_generator self') topology
                (SystemGenerator.forcefield_kwargs self')) as [assembled|e''] eqn:Hsys.
    + right. exists self', assembled.
      change (match SystemGenerator.postprocess_system self' with
              | Some hook => hook (SystemGenerator._modify_forces self' seed assembled)
              | None => Ok (SystemGenerator._modify_forces self' seed assembled)
              end = Raise e) in Hret.
      destruct (SystemGenerator.postprocess_system self') as [hook|]; [|done].
      exists hook. done.
    + left. exists self'. split; [done|].
      change (Raise (A:=System) e'' = Raise e) in Hret. by injection Hret as ->.
  - left. cbn [snd] in Hret. injection Hret as ->.
    destruct (inform_cases world self molecules)
      as [E'|(tg & ms & Htg & Hms & [(tg' & Hadd & E')|(e'' & Hadd & E')])];
      rewrite E' in E; try discriminate.
    injection E as ->. exists tg, ms. done.
Qed.

Lemma create_system_raises_only_collaborator_errors_example :
  (SystemGenerator.create_system failing_engine_world bare_generator chain4 None 0).2
  = Raise (OtherError "No template found for residue 1 (MOL)") ∧
  createSystem failing_engine_world (mkForceField [] []) None chain4 []
  = Raise (OtherError "No template found for residue 1 (MOL)").
Proof.
  split; [reflexivity|].
  destruct (create_system_raises_only_collaborator_errors failing_engine_world
              bare_generator chain4 None 0
              (OtherError "No template found for residue 1 (MOL)") eq_refl)
    as [(tg & ms & Htg & _)|[(self' & Hinf & Hsys)|(self' & a & h & Hinf & Hsys & _)]].
  - discriminate Htg.
  - injection Hinf as <-. exact Hsys.
  - injection Hinf as <-. discriminate Hsys.
Defined.

(** ** What a constructed generator holds *)

(** The instance selected by the probing loop was built by one of the
    classes probed, unless it was selected before the loop. *)
Lemma probe_selected (ff : string) (cache : option string)
    (classes : list TemplateGeneratorClass) (tg0 : option TemplateGenerator)
    (log0 : list string) (instance : TemplateGenerator) :
  (foldl (SystemGenerator.probe ff cache) (tg0, log0) classes).1 = Some instance →
  tg0 = Some instance ∨
  ∃ cls, cls ∈ classes ∧ construct cls ff cache = Constructed instance.
Proof.
  revert tg0 log0. induction classes as [|cls classes IH]; intros tg0 log0 Hsel.
  - by left.
  - simpl in Hsel.
    destruct (construct cls ff cache) as [inst|e] eqn:Hc;
      apply IH in Hsel as [Hsel|(cls' & Hin & Hc')].
    + right. exists cls. split; [apply elem_of_cons; by left|]. congruence.
    + right. exists cls'. split; [apply elem_of_cons; by right | done].
    + by left.
    + right. exists cls'. split; [apply elem_of_cons; by right | done].
Qed.

(** X11.  Every generator that [__init__] returns was given a force-field
    identifier that one of the registered classes accepted; it holds the
    instance that class built, as its [add_molecules] returned it for the
    initial molecules, the engine object made from the given ffxml files
    (none when the argument is [None]) with exactly that one template
    generator registered, the keyword arguments (empty when [None]), and
    the barostat and the hook as given. *)
Theorem init_success_holds_accepted_generator (world : Collaborators)
    (forcefields : option (list string)) (small_molecule_forcefield : option string)
    (forcefield_kwargs : option Kwargs) (barostat : option Barostat)
    (molecules : option (list Molecule)) (cache : option string)
    (postprocess_system : option (System → result System)) (self : SystemGenerator.t) :
  (SystemGenerator.__init__ world forcefields small_molecule_forcefield forcefield_kwargs
     barostat molecules cache postprocess_system).2 = Ok self →
  ∃ ff cls instance tg,
    small_molecule_forcefield = Some ff ∧
    cls ∈ subclasses world ∧
    construct cls ff cache = Constructed instance ∧
    tg_add_molecules world instance molecules = Ok tg ∧
    self = SystemGenerator.mk barostat true true true true true postprocess_system
             (mkForceField (default [] forcefields) [tg_class instance])
             (default [] forcefield_kwargs) (Some tg).
Proof.
  intros Hinit. unfold SystemGenerator.__init__ in Hinit.
  destruct small_molecule_forcefield as [ff|]; [|by simpl in Hinit].
  destruct (foldl (SystemGenerator.probe ff cache) (None, []) (subclasses world))
    as [[instance|] log] eqn:Hprobe; [|by simpl in Hinit].
  simpl in Hinit. unfold SystemGenerator.add_molecules in Hinit. simpl in Hinit.
  destruct (tg_add_molecules world instance molecules) as [tg|e] eqn:Hadd;
    [|by simpl in Hinit].
  simpl in Hinit. injection Hinit as <-.
  destruct (probe_selected ff cache (subclasses world) None [] instance)
    as [Hnone|(cls & Hin & Hc)]; [by rewrite Hprobe | done |].
  exists ff, cls, instance, tg. done.
Qed.

Lemma init_success_holds_accepted_generator_example :
  ∃ self cls,
    (SystemGenerator.__init__
       (example_world [GAFFTemplateGenerator; SMIRNOFFTemplateGenerator])
       None (Some "gaff-2.11") None None (Some ["CCO"]) (Some "db.json") None).2 = Ok self ∧
    cls ∈ [GAFFTemplateGenerator; SMIRNOFFTemplateGenerator] ∧
    SystemGenerator.forcefield self = mkForceField [] [__name__ cls].
Proof.
  eexists.
  edestruct (init_success_holds_accepted_generator
               (example_world [GAFFTemplateGenerator; SMIRNOFFTemplateGenerator])
               None (Some "gaff-2.11") None None (Some ["CCO"]) (Some "db.json") None)
    as (ff & cls & instance & tg & Hff & Hin & Hc & _ & Hself).
  { vm_compute. reflexivity. }
  exists cls. split; [reflexivity|]. split; [exact Hin|].
  injection Hff as <-. simpl in Hin.
  apply elem_of_cons in Hin as [->|Hin].
  - reflexivity.
  - apply list_elem_of_singleton in Hin as ->. vm_compute in Hc. discriminate Hc.
Defined.

(** X12.  Whether construction succeeds or fails, the debug log of
    [__init__] is, for each registered class in order, the line announcing
    the attempt, followed for a class that rejected the identifier by the
    line saying so and the text of its error; nothing is logged when no
    identifier is requested. *)
Theorem init_log_covers_every_class (world : Collaborators)
    (forcefields : option (list string)) (small_molecule_forcefield : option string)
    (forcefield_kwargs : option Kwargs) (barostat : option Barostat)
    (molecules : option (list Molecule)) (cache : option string)
    (postprocess_system : option (System → result System)) :
  (SystemGenerator.__init__ world forcefields small_molecule_forcefield forcefield_kwargs
     barostat molecules cache postprocess_system).1
  = match small_molecule_forcefield with
    | Some ff => concat (probe_log ff cache <$> subclasses world)
    | None => []
    end.
Proof.
  unfold SystemGenerator.__init__.
  destruct small_molecule_forcefield as [ff|]; [|done].
  pose proof (probe_log_all ff cache (subclasses world) None []) as Hlog.
  destruct (foldl (SystemGenerator.probe ff cache) (None, []) (subclasses world))
    as [[instance|] log]; simpl in *; by subst.
Qed.
